(** * Multi-head semantic segmentation pipeline: sampler and aggregator

    A shallow embedding of
    [ml3d/torch/pipelines/semantic_segmentation_multi_head.py]:

    - [Sampler]: [CustomDistributedSampler.__init__] and [__iter__]
      (the partitioned index table, padding, sharding, flattening);
    - [Pipeline]: [update_tests], [run_inference], the distributed check
      and the per-batch training and validation steps of [run_train];
    - [Checkpoint]: [load_ckpt] and [save_ckpt] over a store of checkpoint
      files;
    - [pcd_step]: the subsampling stride of [get_3d_summary];
    - [Logs]: [save_logs] and the loop of [run_train] that calls it.

    Python integers are unbounded.  Lengths, dataset indices and the
    constructor's size parameters are natural numbers; seeds, epochs and
    cloud ids are in [Z].  Python exceptions are values of [exn]. *)

From Stdlib Require Import Floats.
From stdpp Require Import base numbers list strings gmap pretty.

#[local] Open Scope nat_scope.

(** ** Exceptions and results *)

Inductive exn : Type :=
| AssertionError
| ZeroDivisionError
| IndexError
| ValueError
| AttributeError
| NotImplementedError
| RuntimeError.

#[global] Instance exn_eq_dec : EqDecision exn.
Proof. solve_decision. Defined.

Inductive result (A : Type) : Type :=
| Ok (a : A)
| Err (e : exn).
Arguments Ok {A} a.
Arguments Err {A} e.

Definition rbind {A B} (r : result A) (k : A → result B) : result B :=
  match r with
  | Ok a => k a
  | Err e => Err e
  end.

Fixpoint rmapM {A B} (f : A → result B) (l : list A) : result (list B) :=
  match l with
  | [] => Ok []
  | x :: t => rbind (f x) (λ y, rbind (rmapM f t) (λ ys, Ok (y :: ys)))
  end.

(** ** Python sequence operations on index lists *)

(** [math.ceil(a / b)] for [b > 0], in exact integer arithmetic (the
    source divides in double precision, which is exact for the row counts
    of an index table). *)
Definition ceil_div (a b : nat) : nat :=
  a / b + (if a mod b =? 0 then 0 else 1).

(** Number of elements of [l[start::step]] for a list of length [len]. *)
Definition slice_len (start step len : nat) : nat :=
  if start <? len then (len - start + step - 1) / step else 0.

(** [l[start::step]] for [step > 0]: the entries at [start],
    [start + step], [start + 2*step], ... *)
Definition slice_step (start step : nat) (l : list nat) : list nat :=
  (λ k, nth (start + k * step) l 0) <$> seq 0 (slice_len start step (length l)).

(** [l[:-k]] for [k > 0]. *)
Definition drop_tail (k : nat) (l : list nat) : list nat :=
  take (length l - k) l.

(** A two-dimensional integer array: [shape = (length rows, ncols)]. *)
Record array2 : Type := Array2 {
  ncols : nat;
  rows : list (list nat)
}.

Definition shape0 (a : array2) : nat := length (rows a).

(** [np.array(l).reshape(-1, b)]. *)
Definition reshape (b : nat) (l : list nat) : result array2 :=
  if b =? 0 then Err ValueError
  else if negb (length l mod b =? 0) then Err ValueError
  else Ok (Array2 b ((λ r, take b (drop (r * b) l)) <$> seq 0 (length l / b))).

(** [np.concatenate(blocks, axis=0)]. *)
Definition concatenate (blocks : list array2) : result array2 :=
  match blocks with
  | [] => Err ValueError
  | a :: t =>
      if forallb (λ b, ncols b =? ncols a) t
      then Ok (Array2 (ncols a) (concat (rows <$> blocks)))
      else Err ValueError
  end.

(** [a[idx]] for an integer index list [idx]: the selected rows. *)
Definition take_rows (a : array2) (idx : list nat) : result array2 :=
  rbind (rmapM (λ i, match rows a !! i with
                     | Some r => Ok r
                     | None => Err IndexError
                     end) idx)
        (λ rs, Ok (Array2 (ncols a) rs)).

(** [a.flatten()]. *)
Definition flatten (a : array2) : list nat := concat (rows a).

(** ** CustomDistributedSampler *)

Module Sampler.

Record t : Type := Mk {
  batch_size : nat;
  num_heads : nat;
  num_replicas : nat;
  rank : nat;
  shuffle : bool;
  seed : Z;
  epoch : Z;
  indices_batched : array2;
  num_samples : nat;
  total_size : nat
}.

(** [__init__], for a dataset of [n] elements, once the base class
    constructor called at line 38 (not part of this repository) has
    accepted the replica count and the rank: it sets [epoch] to 0, and it
    raises [ValueError] unless [rank < num_replicas], see [new].  This is
    the constructor as [run_train] calls it, without replica count and
    rank, which the base class then takes from the process group.  A
    replica count of 0, which no process group has, is a divisor in the
    base class and again at line 58. *)
Definition init (n batch_size num_heads num_replicas rank : nat)
    (shuffle : bool) (seed : Z) : result t :=
  if num_replicas =? 0 then Err ZeroDivisionError else
  let indices := seq 0 n in
  if num_heads =? 0 then Err ZeroDivisionError else
  if negb (length indices mod num_heads =? 0) then Err AssertionError else
  if batch_size =? 0 then Err ZeroDivisionError else
  let drop_count := (length indices / num_heads) mod batch_size in
  let indices :=
    if negb (drop_count =? 0) then drop_tail (drop_count * num_heads) indices
    else indices in
  rbind (rmapM (λ i, reshape batch_size (slice_step i num_heads indices))
               (seq 0 num_heads)) (λ blocks,
  rbind (concatenate blocks) (λ table,
  let num_samples := ceil_div (shape0 table) num_replicas * batch_size in
  let total_size := num_samples * num_replicas in
  Ok (Mk batch_size num_heads num_replicas rank shuffle seed 0 table
         num_samples total_size))).

(** [CustomDistributedSampler(dataset, batch_size, num_heads, num_replicas,
    rank, shuffle, seed)] with the replica count and the rank given: the
    base class constructor checks [rank >= num_replicas or rank < 0]
    first. *)
Definition new (n batch_size num_heads num_replicas rank : nat)
    (shuffle : bool) (seed : Z) : result t :=
  if num_replicas <=? rank then Err ValueError
  else init n batch_size num_heads num_replicas rank shuffle seed.

Definition set_epoch (s : t) (e : Z) : t :=
  Mk (batch_size s) (num_heads s) (num_replicas s) (rank s) (shuffle s)
     (seed s) e (indices_batched s) (num_samples s) (total_size s).

Section WithGenerator.

(** [randperm sd n] is [torch.randperm(n, generator=g).tolist()] for a
    generator [g] seeded with [sd]. *)
Variable randperm : Z → nat → list nat.
Hypothesis randperm_perm : ∀ sd n, randperm sd n ≡ₚ seq 0 n.

(** [g.manual_seed(v)] accepts the 64-bit values, signed or unsigned,
    and raises [RuntimeError] for any other. *)
Definition manual_seed (v : Z) : result unit :=
  if ((- 2 ^ 63 <=? v) && (v <? 2 ^ 64))%Z then Ok tt else Err RuntimeError.

(** The row order of an epoch (lines 63-69), once the generator has
    accepted its seed. *)
Definition row_order (s : t) : list nat :=
  if shuffle s
  then randperm (seed s + epoch s)%Z (shape0 (indices_batched s))
  else seq 0 (shape0 (indices_batched s)).

(** The wraparound padding (lines 71-74). *)
Definition pad (num_replicas : nat) (indices : list nat) : list nat :=
  if negb (length indices mod num_replicas =? 0)
  then
    let padding_size := num_replicas - length indices mod num_replicas in
    indices ++ take padding_size indices
  else indices.

(** [__iter__]: the sequence the returned iterator yields. *)
Definition iter (s : t) : result (list nat) :=
  rbind (if shuffle s then manual_seed (seed s + epoch s) else Ok tt) (λ _,
  let indices := row_order s in
  if num_replicas s =? 0 then Err ZeroDivisionError else
  let indices := pad (num_replicas s) indices in
  if negb (length indices * batch_size s =? total_size s)
  then Err AssertionError else
  let indices := slice_step (rank s) (num_replicas s) indices in
  rbind (take_rows (indices_batched s) indices) (λ selected,
  let indices := flatten selected in
  if negb (length indices =? num_samples s) then Err AssertionError
  else Ok indices)).

End WithGenerator.

End Sampler.

(** ** Control flow of a method body

    A statement runs on the attributes of [self] (the state [S]) and either
    falls through with a value, executes [continue], executes [return r],
    or raises; the state reached so far is kept in every case. *)

Inductive outcome (S R A : Type) : Type :=
| Normal (a : A) (s : S)
| Continue (s : S)
| Return (r : R) (s : S)
| Raise (e : exn) (s : S).
Arguments Normal {S R A} a s.
Arguments Continue {S R A} s.
Arguments Return {S R A} r s.
Arguments Raise {S R A} e s.

Definition final_state {S R A} (o : outcome S R A) : S :=
  match o with
  | Normal _ s | Continue s | Return _ s | Raise _ s => s
  end.

Definition M (S R A : Type) : Type := S → outcome S R A.

#[global] Instance M_ret {S R} : MRet (M S R) := λ A a s, Normal a s.

#[global] Instance M_bind {S R} : MBind (M S R) := λ A B k m s,
  match m s with
  | Normal a s' => k a s'
  | Continue s' => Continue s'
  | Return r s' => Return r s'
  | Raise e s' => Raise e s'
  end.

Definition get {S R} : M S R S := λ s, Normal s s.
Definition modify {S R} (f : S → S) : M S R unit := λ s, Normal tt (f s).
Definition raise {S R A} (e : exn) : M S R A := λ s, Raise e s.
Definition return_ {S R} (r : R) : M S R unit := λ s, Return r s.
Definition continue_ {S R} : M S R unit := λ s, Continue s.

Definition lift {S R A} (r : result A) : M S R A :=
  match r with
  | Ok a => mret a
  | Err e => raise e
  end.

(** [for x in l: body x]. *)
Fixpoint for_each {S R A} (l : list A) (body : A → M S R unit) : M S R unit :=
  match l with
  | [] => mret tt
  | x :: t => λ s,
      match body x s with
      | Normal _ s' | Continue s' => for_each t body s'
      | Return r s' => Return r s'
      | Raise e s' => Raise e s'
      end
  end.

(** ** Python list operations with integer subscripts *)

(** The position addressed by subscript [i] in a sequence of length [n]:
    negative subscripts count from the end. *)
Definition py_pos (n : nat) (i : Z) : result nat :=
  let j := if (i <? 0)%Z then (i + Z.of_nat n)%Z else i in
  if ((0 <=? j) && (j <? Z.of_nat n))%Z then Ok (Z.to_nat j) else Err IndexError.

(** [l[i]]. *)
Definition py_index {A} (l : list A) (i : Z) : result A :=
  rbind (py_pos (length l) i) (λ j,
  match l !! j with
  | Some x => Ok x
  | None => Err IndexError
  end).

(** [l[i] = v]. *)
Definition py_setitem {A} (l : list A) (i : Z) (v : A) : result (list A) :=
  rbind (py_pos (length l) i) (λ j, Ok (<[j:=v]> l)).

(** [l.pop()]. *)
Definition py_pop {A} (l : list A) : result (A * list A) :=
  match last l with
  | Some x => Ok (x, removelast l)
  | None => Err IndexError
  end.

(** [a[idx]] for a one-dimensional integer index array [idx]. *)
Definition gather {A} (a : list A) (idx : list Z) : result (list A) :=
  rmapM (py_index a) idx.

(** [np.arange(n)]. *)
Definition arange (n : nat) : list Z := Z.of_nat <$> seq 0 n.

(** ** SemanticSegmentationMultiHead *)

Module Pipeline.

Definition end_threshold : float := 0.5%float.

(** [p[p > end_threshold].shape[0]]. *)
Definition count_above (p : list float) : nat :=
  length (filter (λ w, PrimFloat.ltb end_threshold w = true) p).

(** A [tqdm] progress bar: its total and its counter. *)
Record pbar_t : Type := Pbar { pbar_total : nat; pbar_n : Z }.

(** The attributes of [self] used by the streaming aggregation.  [None]
    stands for an attribute that has not been assigned yet. *)
Record agg : Type := Agg {
  curr_cloud_id : Z;
  test_probs : list (list (list float));
  test_labels : list (list Z);
  ori_test_probs : list (list (list float));
  ori_test_labels : list (list Z);
  complete_infer : option bool;
  pbar : option pbar_t;
  pbar_update : option nat
}.

Definition set_curr_cloud_id (v : Z) (s : agg) : agg :=
  Agg v (test_probs s) (test_labels s) (ori_test_probs s) (ori_test_labels s)
      (complete_infer s) (pbar s) (pbar_update s).
Definition set_test_probs (v : list (list (list float))) (s : agg) : agg :=
  Agg (curr_cloud_id s) v (test_labels s) (ori_test_probs s) (ori_test_labels s)
      (complete_infer s) (pbar s) (pbar_update s).
Definition set_test_labels (v : list (list Z)) (s : agg) : agg :=
  Agg (curr_cloud_id s) (test_probs s) v (ori_test_probs s) (ori_test_labels s)
      (complete_infer s) (pbar s) (pbar_update s).
Definition set_ori_test_probs (v : list (list (list float))) (s : agg) : agg :=
  Agg (curr_cloud_id s) (test_probs s) (test_labels s) v (ori_test_labels s)
      (complete_infer s) (pbar s) (pbar_update s).
Definition set_ori_test_labels (v : list (list Z)) (s : agg) : agg :=
  Agg (curr_cloud_id s) (test_probs s) (test_labels s) (ori_test_probs s) v
      (complete_infer s) (pbar s) (pbar_update s).
Definition set_complete_infer (v : option bool) (s : agg) : agg :=
  Agg (curr_cloud_id s) (test_probs s) (test_labels s) (ori_test_probs s)
      (ori_test_labels s) v (pbar s) (pbar_update s).
Definition set_pbar (v : option pbar_t) (s : agg) : agg :=
  Agg (curr_cloud_id s) (test_probs s) (test_labels s) (ori_test_probs s)
      (ori_test_labels s) (complete_infer s) v (pbar_update s).
Definition set_pbar_update (v : option nat) (s : agg) : agg :=
  Agg (curr_cloud_id s) (test_probs s) (test_labels s) (ori_test_probs s)
      (ori_test_labels s) (complete_infer s) (pbar s) v.

(** The dataset sampler passed to [update_tests]. *)
Record sampler_t : Type := SamplerState {
  split : string;
  cloud_id : Z;
  possibilities : list (list float)
}.

Section Aggregator.

(** The types of a collated batch, of the model output and of one raw
    cloud of the dataset. *)
Context {Inputs Results Data : Type}.

(** The capabilities of the model consumed here: [cfg.num_classes],
    [model(inputs['data'])], [update_probs], and the ['proj_inds'] entry
    ([None] when absent) of [preprocess(data, {'split': split})]. *)
Record model_t : Type := Model {
  num_classes : nat;
  forward : Inputs → Results;
  update_probs : Inputs → Results → list (list float) → list Z →
                 list (list float) * list Z;
  preprocess_proj_inds : Data → string → option (list Z)
}.

Variable model : model_t.

(** [self.dataset_split.get_data]. *)
Variable get_data : Z → Data.

(** What [run_inference] can return. *)
Inductive retval : Type :=
| RawOutput (results : Results)
| InferenceResult (predict_labels : list Z) (predict_scores : list (list float)).

Definition getattr {A R} (name : agg → option A) : M agg R A :=
  s ← get;
  match name s with
  | Some v => mret v
  | None => raise AttributeError
  end.

(** Lines 392-404: the incoming cloud id differs from the tracked one. *)
Definition start_cloud {R} (sampler : sampler_t) : M agg R unit :=
  modify (set_curr_cloud_id (cloud_id sampler));;
  p ← lift (py_index (possibilities sampler) (cloud_id sampler));
  let num_points := length p in
  modify (set_pbar (Some (Pbar num_points 0)));;
  modify (set_pbar_update (Some 0));;
  modify (λ s, set_test_probs
    (test_probs s ++ [replicate num_points (replicate (num_classes model) 0%float)]) s);;
  modify (λ s, set_test_labels (test_labels s ++ [replicate num_points 0%Z]) s);;
  modify (set_complete_infer (Some false)).

(** Lines 421-432: the completion actions. *)
Definition complete_cloud {R} (split : string) : M agg R unit :=
  s ← get;
  let proj_inds := preprocess_proj_inds model (get_data (curr_cloud_id s)) split in
  proj_inds ←
    match proj_inds with
    | Some pi => mret pi
    | None =>
        probs ← lift (py_index (test_probs s) (curr_cloud_id s));
        mret (arange (length probs))
    end;
  probs ← lift (py_index (test_probs s) (curr_cloud_id s));
  ori_probs ← lift (gather probs proj_inds);
  modify (λ s, set_ori_test_probs (ori_test_probs s ++ [ori_probs]) s);;
  labels ← lift (py_index (test_labels s) (curr_cloud_id s));
  ori_labels ← lift (gather labels proj_inds);
  modify (λ s, set_ori_test_labels (ori_test_labels s ++ [ori_labels]) s);;
  modify (set_complete_infer (Some true)).

(** [update_tests(sampler, inputs, results)]. *)
Definition update_tests {R} (sampler : sampler_t) (inputs : Inputs)
    (results : Results) : M agg R unit :=
  let split := split sampler in
  s ← get;
  (if bool_decide (curr_cloud_id s ≠ cloud_id sampler)
   then start_cloud sampler else mret tt);;
  this_possibility ← lift (py_index (possibilities sampler) (cloud_id sampler));
  bar ← getattr pbar;
  done_before ← getattr pbar_update;
  let delta := (Z.of_nat (count_above this_possibility) - Z.of_nat done_before)%Z in
  modify (set_pbar (Some (Pbar (pbar_total bar) (pbar_n bar + delta))));;
  modify (set_pbar_update (Some (count_above this_possibility)));;
  s ← get;
  probs ← lift (py_index (test_probs s) (curr_cloud_id s));
  labels ← lift (py_index (test_labels s) (curr_cloud_id s));
  let updated := update_probs model inputs results probs labels in
  new_probs ← lift (py_setitem (test_probs s) (curr_cloud_id s) updated.1);
  modify (set_test_probs new_probs);;
  new_labels ← lift (py_setitem (test_labels s) (curr_cloud_id s) updated.2);
  modify (set_test_labels new_labels);;
  if bool_decide (split ∈ ["test"]) &&
     (count_above this_possibility =? length this_possibility)
  then complete_cloud split
  else mret tt.

(** The reset of lines 221-225 and 342-346. *)
Definition reset_tests {R} : M agg R unit :=
  modify (set_curr_cloud_id (-1));;
  modify (set_test_probs []);;
  modify (set_test_labels []);;
  modify (set_ori_test_probs []);;
  modify (set_ori_test_labels []).

(** [run_inference(data)], from the reset on; [infer_loader] lists the
    batches the data loader yields for [data].  [print(results.shape)]
    and, after the loop, the metric and its logging (lines 241-250) change
    neither these attributes nor the value returned and are left out. *)
Definition run_inference (infer_sampler : sampler_t)
    (infer_loader : list Inputs) : M agg retval unit :=
  reset_tests;;
  for_each infer_loader (λ inputs,
    let results := forward model inputs in
    return_ (RawOutput results);;
    update_tests infer_sampler inputs results);;
  s ← get;
  '(predict_labels, rest) ← lift (py_pop (ori_test_labels s));
  modify (set_ori_test_labels rest);;
  s ← get;
  '(predict_scores, rest) ← lift (py_pop (ori_test_probs s));
  modify (set_ori_test_probs rest);;
  return_ (InferenceResult predict_labels predict_scores).

(** One iteration of the loop of [run_test_1] (lines 352-377), as far as
    the aggregation state goes: the finalized buffers are popped when the
    cloud is complete.  The loader yields, with each batch, the sampler
    as it stands at that batch. *)
Definition test_step (step : sampler_t * Inputs) : M agg retval unit :=
  let '(test_sampler, inputs) := step in
  let results := forward model inputs in
  update_tests test_sampler inputs results;;
  complete ← getattr complete_infer;
  if complete : bool then
    s ← get;
    '(_, rest) ← lift (py_pop (ori_test_labels s));
    modify (set_ori_test_labels rest);;
    s ← get;
    '(_, rest) ← lift (py_pop (ori_test_probs s));
    modify (set_ori_test_probs rest)
  else mret tt.

Definition run_test_1 (test_loader : list (sampler_t * Inputs)) : M agg retval unit :=
  reset_tests;;
  for_each test_loader test_step.

End Aggregator.

Arguments model_t : clear implicits.
Arguments retval : clear implicits.

(** *** run_train *)

(** Calls into collaborators made by [run_train], in program order. *)
Inductive event : Type :=
| EvTorchDataloader (stage : string)
| EvCustomDistributedSampler (stage : string)
| EvDataLoader (stage : string)
| EvSetEpoch (epoch : Z)
| EvZeroGrad
| EvForward
| EvGetLoss
| EvBackward
| EvClipGrad
| EvOptimizerStep
| EvSummary (stage : string)
| EvSetDescription
| EvBarrier
| EvSchedulerStep.

#[global] Instance event_eq_dec : EqDecision event.
Proof. solve_decision. Defined.

(** The configuration read by [run_train]. *)
Record cfg_t : Type := Cfg {
  distributed : bool;
  rank : nat;
  world_size : nat;
  batch_size : nat;
  val_batch_size : nat;
  num_heads : nat;
  max_epoch : Z;
  record_summary : list string;
  grad_clip_norm : option float
}.

(** A sampler handed to a data loader. *)
Inductive sampler_obj : Type :=
| DatasetSampler (s : sampler_t)
| DistributedSampler (s : Sampler.t).

Section Training.

Context {Inputs Results Loss Labels Scores Metric Weights : Type}.

(** The model, loss, optimizer and metric operations the loop calls, and
    [self.get_3d_summary(results, inputs['data'], epoch)], which returns
    the summary or raises (lines 794-801). *)
Record trainer_t : Type := Trainer {
  dataset_idx : Inputs → Z;
  model_call : Weights → Inputs → Results;
  get_loss : Results → Inputs → Loss * Labels * Scores;
  size : Scores → list nat;
  loss_item : Loss → float;
  zero_grad : Weights → Weights;
  backward : Loss → Weights → Weights;
  clip_grad_value : float → Weights → Weights;
  optimizer_step : Weights → Weights;
  scheduler_step : Weights → Weights;
  new_metric : Metric;
  metric_reset : Metric → Metric;
  metric_update : Metric → Scores → Labels → Metric;
  get_3d_summary : Results → Inputs → Z → result unit
}.

Variable cfg : cfg_t.
Variable tr : trainer_t.

(** The attributes of [self], the model and optimizer state, and the
    calls made so far. *)
Record train : Type := Train {
  weights : Weights;
  metric_train : list Metric;
  metric_val : list Metric;
  losses : list (list float);
  valid_losses : list (list float);
  events : list event
}.

Definition set_weights (v : Weights) (s : train) : train :=
  Train v (metric_train s) (metric_val s) (losses s) (valid_losses s) (events s).
Definition set_metric_train (v : list Metric) (s : train) : train :=
  Train (weights s) v (metric_val s) (losses s) (valid_losses s) (events s).
Definition set_metric_val (v : list Metric) (s : train) : train :=
  Train (weights s) (metric_train s) v (losses s) (valid_losses s) (events s).
Definition set_losses (v : list (list float)) (s : train) : train :=
  Train (weights s) (metric_train s) (metric_val s) v (valid_losses s) (events s).
Definition set_valid_losses (v : list (list float)) (s : train) : train :=
  Train (weights s) (metric_train s) (metric_val s) (losses s) v (events s).
Definition emit (e : event) (s : train) : train :=
  Train (weights s) (metric_train s) (metric_val s) (losses s) (valid_losses s)
        (events s ++ [e]).

(** [model.cfg.get('grad_clip_norm', -1) > 0]. *)
Definition clip_enabled : bool :=
  PrimFloat.ltb 0%float (default (-1)%float (grad_clip_norm cfg)).

(** The body of the training loop (lines 576-614).  [n] is the value of
    [progress_bar.n] read at line 603. *)
Definition train_batch (epoch : Z) (n : nat) (inputs : Inputs) : M train unit unit :=
  let dataset_idx := dataset_idx tr inputs in
  modify (λ s, emit EvZeroGrad (set_weights (zero_grad tr (weights s)) s));;
  s ← get;
  let results := model_call tr (weights s) inputs in
  modify (emit EvForward);;
  let '(loss, gt_labels, predict_scores) := get_loss tr results inputs in
  modify (emit EvGetLoss);;
  last_dim ← lift (py_index (size tr predict_scores) (-1));
  (if last_dim =? 0 then continue_ else mret tt);;
  modify (λ s, emit EvBackward (set_weights (backward tr loss (weights s)) s));;
  (if clip_enabled
   then modify (λ s, emit EvClipGrad
          (set_weights (clip_grad_value tr (default (-1)%float (grad_clip_norm cfg))
                                        (weights s)) s))
   else mret tt);;
  modify (λ s, emit EvOptimizerStep (set_weights (optimizer_step tr (weights s)) s));;
  s ← get;
  m ← lift (py_index (metric_train s) dataset_idx);
  ms ← lift (py_setitem (metric_train s) dataset_idx
                        (metric_update tr m predict_scores gt_labels));
  modify (set_metric_train ms);;
  s ← get;
  l ← lift (py_index (losses s) dataset_idx);
  ls ← lift (py_setitem (losses s) dataset_idx (l ++ [loss_item tr loss]));
  modify (set_losses ls);;
  (if bool_decide ("train" ∈ record_summary cfg) && (n =? 0)
   then modify (emit (EvSummary "train"));;
        lift (get_3d_summary tr results inputs epoch)
   else mret tt);;
  modify (emit EvSetDescription);;
  if distributed cfg then modify (emit EvBarrier) else mret tt.

(** The body of the validation loop (lines 627-644). *)
Definition valid_batch (epoch : Z) (step : nat) (inputs : Inputs) : M train unit unit :=
  let dataset_idx := dataset_idx tr inputs in
  s ← get;
  let results := model_call tr (weights s) inputs in
  modify (emit EvForward);;
  let '(loss, gt_labels, predict_scores) := get_loss tr results inputs in
  modify (emit EvGetLoss);;
  last_dim ← lift (py_index (size tr predict_scores) (-1));
  (if last_dim =? 0 then continue_ else mret tt);;
  s ← get;
  m ← lift (py_index (metric_val s) dataset_idx);
  ms ← lift (py_setitem (metric_val s) dataset_idx
                        (metric_update tr m predict_scores gt_labels));
  modify (set_metric_val ms);;
  s ← get;
  l ← lift (py_index (valid_losses s) dataset_idx);
  ls ← lift (py_setitem (valid_losses s) dataset_idx (l ++ [loss_item tr loss]));
  modify (set_valid_losses ls);;
  if bool_decide ("valid" ∈ record_summary cfg) && (step =? 0)
  then modify (emit (EvSummary "valid"));;
       lift (get_3d_summary tr results inputs epoch)
  else mret tt.

(** [enumerate(l)]. *)
Definition enumerate {A} (l : list A) : list (nat * A) := imap (λ i x, (i, x)) l.

(** [range(a, b)]. *)
Definition range (a b : Z) : list Z :=
  (λ i, (a + Z.of_nat i)%Z) <$> seq 0 (Z.to_nat (b - a)).

(** The batches the two data loaders yield in a given epoch, and the
    values [progress_bar.n] takes at line 603. *)
Variable train_loader valid_loader : Z → list Inputs.
Variable progress_n : nat → nat.

(** One epoch (lines 563-644): training pass, scheduler step, validation
    pass.  The cross-replica reduction and the logging that follow are
    not part of this development. *)
Definition run_epoch (epoch : Z) : M train unit unit :=
  (if distributed cfg then modify (emit (EvSetEpoch epoch)) else mret tt);;
  for_each (seq 0 (num_heads cfg)) (λ i,
    s ← get;
    m ← lift (py_index (metric_train s) (Z.of_nat i));
    ms ← lift (py_setitem (metric_train s) (Z.of_nat i) (metric_reset tr m));
    modify (set_metric_train ms);;
    s ← get;
    m ← lift (py_index (metric_val s) (Z.of_nat i));
    ms ← lift (py_setitem (metric_val s) (Z.of_nat i) (metric_reset tr m));
    modify (set_metric_val ms));;
  modify (set_losses (replicate (num_heads cfg) []));;
  for_each (enumerate (train_loader epoch))
           (λ '(i, inputs), train_batch epoch (progress_n i) inputs);;
  modify (λ s, emit EvSchedulerStep (set_weights (scheduler_step tr (weights s)) s));;
  modify (set_valid_losses (replicate (num_heads cfg) []));;
  for_each (enumerate (valid_loader epoch))
           (λ '(step, inputs), valid_batch epoch step inputs).

(** Lines 491-502: the distributed check, given the two samplers as they
    stand when it is reached. *)
Definition distributed_check (len_train len_valid : nat)
    (train_sampler valid_sampler : option sampler_obj)
    : M train unit (option sampler_obj * option sampler_obj) :=
  if distributed cfg then
    (if bool_decide (train_sampler ≠ None) || bool_decide (valid_sampler ≠ None)
     then raise NotImplementedError else mret tt);;
    ts ← lift (Sampler.init len_train (batch_size cfg) (num_heads cfg)
                            (world_size cfg) (rank cfg) true 0);
    modify (emit (EvCustomDistributedSampler "train"));;
    vs ← lift (Sampler.init len_valid (val_batch_size cfg) (num_heads cfg)
                            (world_size cfg) (rank cfg) true 0);
    modify (emit (EvCustomDistributedSampler "val"));;
    mret (Some (DistributedSampler ts), Some (DistributedSampler vs))
  else mret (train_sampler, valid_sampler).

(** [run_train] from the distributed check on (lines 491-644).  The
    optimizer set-up and the checkpoint loading of lines 527-560 are
    represented by their result [start_ep]. *)
Definition run_train_from_check (len_train len_valid : nat) (start_ep : Z)
    (train_sampler valid_sampler : option sampler_obj) : M train unit unit :=
  distributed_check len_train len_valid train_sampler valid_sampler;;
  modify (emit (EvDataLoader "train"));;
  modify (emit (EvDataLoader "val"));;
  for_each (range start_ep (max_epoch cfg + 1)) run_epoch.

(** [run_train] from line 458 on. *)
Definition run_train (len_train len_valid : nat) (start_ep : Z) : M train unit unit :=
  modify (set_metric_train (replicate (num_heads cfg) (new_metric tr)));;
  modify (set_metric_val (replicate (num_heads cfg) (new_metric tr)));;
  let train_sampler : option sampler_obj := None in
  let valid_sampler : option sampler_obj := None in
  modify (emit (EvTorchDataloader "train"));;
  modify (emit (EvTorchDataloader "val"));;
  run_train_from_check len_train len_valid start_ep train_sampler valid_sampler.

End Training.

Arguments trainer_t : clear implicits.
Arguments train : clear implicits.

End Pipeline.

(** ** Checkpoints: load_ckpt and save_ckpt *)

Module Checkpoint.

(** The exceptions of the two methods: those of [exn], and two of their
    own. *)
Inductive io_exn : Type :=
| Py (e : exn)
| FileNotFoundError
| KeyError.

(** Calls into collaborators other than the file store. *)
Inductive call : Type :=
| MakeDir (path : string)
| Barrier.

(** [k] zeros. *)
Fixpoint zeros (k : nat) : string :=
  match k with
  | 0 => ""
  | S k => "0" +:+ zeros k
  end.

(** [f'{n:05d}']: decimal, padded with zeros after the sign to five
    characters. *)
Definition format_05d (n : Z) : string :=
  let digits := pretty (Z.abs_N n) in
  if (n <? 0)%Z
  then "-" +:+ zeros (4 - String.length digits) +:+ digits
  else zeros (5 - String.length digits) +:+ digits.

Section WithStateDicts.

(** The state dicts of the model, the optimizer and the scheduler. *)
Context {MS OS SS : Type}.

(** The dict stored in a checkpoint file: [None] for an absent key. *)
Record ckpt : Type := Ckpt {
  ck_epoch : option Z;
  model_state_dict : option MS;
  optimizer_state_dict : option OS;
  scheduler_state_dict : option SS
}.

(** The checkpoint files, by path, and the attributes of [self]: the
    model's state, [self.optimizer] and [self.scheduler] (outer [None]: the
    attribute is not set; inner [None]: it is set to [None]). *)
Record state : Type := State {
  files : gmap string ckpt;
  model_state : MS;
  optimizer : option (option OS);
  scheduler : option (option SS);
  calls : list call
}.

Inductive outcome (A : Type) : Type :=
| Done (a : A) (s : state)
| Failed (e : io_exn) (s : state).
Arguments Done {A} a s.
Arguments Failed {A} e s.

(** [os.path.join], and [latest_torch_ckpt] of the utilities. *)
Variable join : string → string → string.
Variable latest_torch_ckpt : gmap string ckpt → string → option string.

(** [self.cfg.logs_dir], [self.rank], [self.distributed]. *)
Variable logs_dir : string.
Variable rank : nat.
Variable distributed : bool.

Definition log_call (c : call) (s : state) : state :=
  State (files s) (model_state s) (optimizer s) (scheduler s) (calls s ++ [c]).

(** [obj.load_state_dict(sd)] and [obj.state_dict()] on an attribute of
    [self] that may be unset or [None]. *)
Definition state_dict_of {A} (attr : option (option A)) : option A :=
  match attr with
  | Some (Some sd) => Some sd
  | _ => None
  end.

(** [load_ckpt(ckpt_path, is_resume)]: the epoch to resume at. *)
Definition load_ckpt (ckpt_path : option string) (is_resume : bool)
    (s : state) : outcome Z :=
  let train_ckpt_dir := join logs_dir "checkpoint" in
  let s := if rank =? 0 then log_call (MakeDir train_ckpt_dir) s else s in
  let s := if distributed then log_call Barrier s else s in
  let resolved :=
    match ckpt_path with
    | Some p => Some p
    | None =>
        match latest_torch_ckpt (files s) train_ckpt_dir with
        | Some p => if is_resume then Some p else None
        | None => None
        end
    end in
  match resolved with
  | None => Done 0%Z s
  | Some ckpt_path =>
      match files s !! ckpt_path with
      | None => Failed FileNotFoundError s
      | Some ckpt =>
          match model_state_dict ckpt with
          | None => Failed KeyError s
          | Some msd =>
              let s := State (files s) msd (optimizer s) (scheduler s) (calls s) in
              let after_optimizer :=
                match optimizer_state_dict ckpt, optimizer s with
                | Some osd, Some (Some _) =>
                    Done tt (State (files s) (model_state s) (Some (Some osd))
                                   (scheduler s) (calls s))
                | Some _, Some None => Failed (Py AttributeError) s
                | _, _ => Done tt s
                end in
              match after_optimizer with
              | Failed e s => Failed e s
              | Done _ s =>
                  let after_scheduler :=
                    match scheduler_state_dict ckpt, scheduler s with
                    | Some ssd, Some (Some _) =>
                        Done tt (State (files s) (model_state s) (optimizer s)
                                       (Some (Some ssd)) (calls s))
                    | Some _, Some None => Failed (Py AttributeError) s
                    | _, _ => Done tt s
                    end in
                  match after_scheduler with
                  | Failed e s => Failed e s
                  | Done _ s =>
                      Done (match ck_epoch ckpt with
                            | None => 0
                            | Some e => e + 1
                            end)%Z s
                  end
              end
          end
      end
  end.

(** The file [save_ckpt(epoch)] writes. *)
Definition ckpt_file (epoch : Z) : string :=
  join (join logs_dir "checkpoint") ("ckpt_" +:+ format_05d epoch +:+ ".pth").

(** [save_ckpt(epoch)]. *)
Definition save_ckpt (epoch : Z) (s : state) : outcome unit :=
  let path_ckpt := join logs_dir "checkpoint" in
  let s := log_call (MakeDir path_ckpt) s in
  match state_dict_of (optimizer s) with
  | None => Failed (Py AttributeError) s
  | Some osd =>
      match state_dict_of (scheduler s) with
      | None => Failed (Py AttributeError) s
      | Some ssd =>
          let ckpt := Ckpt (Some epoch) (Some (model_state s)) (Some osd) (Some ssd) in
          Done tt (State (<[ckpt_file epoch := ckpt]> (files s)) (model_state s)
                         (optimizer s) (scheduler s) (calls s))
      end
  end.

End WithStateDicts.

Arguments ckpt : clear implicits.
Arguments state : clear implicits.
Arguments outcome : clear implicits.
Arguments Done {MS OS SS A} a s.
Arguments Failed {MS OS SS A} e s.

End Checkpoint.

(** ** The size of a 3D summary (get_3d_summary, lines 783-790) *)

(** The stride that brings a fixed-size cloud of [n] points down to at
    most [max_pts]: [int(np.ceil(n / min(max_pts, n)))].  The quotient is
    a float in the source; it is the exact one here, which agrees with it
    for [n] below [2^53]. *)
Definition pcd_step (max_pts n : nat) : result nat :=
  if (max_pts `min` n) =? 0 then Err ZeroDivisionError
  else Ok (ceil_div n (max_pts `min` n)).

(** The number of points [pointcloud[:, ::step]] keeps of [n]. *)
Definition summary_points (max_pts n : nat) : result nat :=
  rbind (pcd_step max_pts n) (λ step, Ok (slice_len 0 step n)).

(** ** save_logs *)

Module Logs.

Section WithMetrics.

(** The metric objects, and the entries of a summary dict: its
    ['label_to_names'] entry ([None] when absent) and the rest. *)
Context {Metric Payload Names : Type}.

Record summary_dict : Type := SummaryDict {
  payload : Payload;
  label_to_names : option Names
}.

(** The calls made on the writer. *)
Inductive wcall : Type :=
| AddScalar (tag : string) (val : float) (epoch : Z)
| Add3d (tag : string) (d : summary_dict) (epoch : Z) (names : option Names).

(** The attributes of [self] the method reads, the summaries it mutates
    (dicts in insertion order) and the calls received by the writer. *)
Record state : Type := State {
  metric_train : list Metric;
  metric_val : list Metric;
  losses : list (list float);
  valid_losses : list (list float);
  summary : list (string * list (string * summary_dict));
  writer : list wcall
}.

(** [len(metric)], [metric.acc()], [metric.iou()] and [np.mean]. *)
Variable metric_len : Metric → nat.
Variable acc iou : Metric → list float.
Variable mean : list float → float.

Definition write (c : wcall) (s : state) : state :=
  State (metric_train s) (metric_val s) (losses s) (valid_losses s)
        (summary s) (writer s ++ [c]).

Definition set_summary (v : list (string * list (string * summary_dict)))
    (s : state) : state :=
  State (metric_train s) (metric_val s) (losses s) (valid_losses s) v (writer s).

(** Lines 864-871 for one entry of one stage:
    [summary_dict.pop('label_to_names', None)], then [add_3d] with the
    dict as the pop left it. *)
Definition write_3d (epoch : Z) (stage : string) (entry : string * summary_dict)
    : (string * summary_dict) * wcall :=
  let '(key, d) := entry in
  let names := label_to_names d in
  let d' := SummaryDict (payload d) None in
  ((key, d'), Add3d (stage +:+ "/" +:+ key) d' epoch names).

(** The loops of lines 863-871 over all stages and entries: the summaries
    as the pops leave them and the calls made, in order. *)
Definition write_stage (epoch : Z) (st : string * list (string * summary_dict))
    : (string * list (string * summary_dict)) * list wcall :=
  let written := write_3d epoch st.1 <$> st.2 in
  ((st.1, fst <$> written), snd <$> written).

Definition write_summaries (epoch : Z)
    (sm : list (string * list (string * summary_dict)))
    : list (string * list (string * summary_dict)) * list wcall :=
  let written := write_stage epoch <$> sm in
  (fst <$> written, concat (snd <$> written)).

(** [save_logs(writer, epoch, dataset_idx)]. *)
Definition save_logs (epoch : Z) (dataset_idx : Z) : M state unit unit :=
  s ← get;
  mt ← lift (py_index (metric_train s) dataset_idx);
  (if metric_len mt =? 0 then return_ tt
   else
     mv ← lift (py_index (metric_val s) dataset_idx);
     if metric_len mv =? 0 then return_ tt else mret tt);;
  mt ← lift (py_index (metric_train s) dataset_idx);
  let train_accs := acc mt in
  mv ← lift (py_index (metric_val s) dataset_idx);
  let val_accs := acc mv in
  let train_ious := iou mt in
  let val_ious := iou mv in
  l ← lift (py_index (losses s) dataset_idx);
  vl ← lift (py_index (valid_losses s) dataset_idx);
  let acc_dicts := zip train_accs val_accs in
  let iou_dicts := zip train_ious val_ious in
  modify (write (AddScalar (pretty dataset_idx +:+ " : Training loss") (mean l) epoch));;
  modify (write (AddScalar (pretty dataset_idx +:+ " : Validation loss") (mean vl) epoch));;
  last_acc ← lift (py_index acc_dicts (-1));
  modify (write (AddScalar (pretty dataset_idx +:+ " : Training accuracy/ Overall")
                           last_acc.1 epoch));;
  modify (write (AddScalar (pretty dataset_idx +:+ " : Validation accuracy/ Overall")
                           last_acc.2 epoch));;
  last_iou ← lift (py_index iou_dicts (-1));
  modify (write (AddScalar (pretty dataset_idx +:+ " : Training IoU/ Overall")
                           last_iou.1 epoch));;
  modify (write (AddScalar (pretty dataset_idx +:+ " : Validation IoU/ Overall")
                           last_iou.2 epoch));;
  s ← get;
  let written := write_summaries epoch (summary s) in
  modify (λ s, State (metric_train s) (metric_val s) (losses s) (valid_losses s)
                     written.1 (writer s ++ written.2)).

(** A call of a method from a loop: its [return] ends the call only. *)
Definition call_method (m : M state unit unit) : M state unit unit := λ s,
  match m s with
  | Return _ s' => Normal tt s'
  | o => o
  end.

(** Lines 663-664: [for i in range(num_heads): self.save_logs(writer, epoch, i)]. *)
Definition save_all_logs (epoch : Z) (num_heads : nat) : M state unit unit :=
  for_each (seq 0 num_heads) (λ i, call_method (save_logs epoch (Z.of_nat i))).

End WithMetrics.

Arguments summary_dict : clear implicits.
Arguments wcall : clear implicits.
Arguments state : clear implicits.

End Logs.

Import Pipeline.

(** * Specification vocabulary *)

(** The index table of [n] samples, [h] heads and batch size [b], written
    out: block [hd] holds the rows [i] of width [b] of head [hd], whose
    entry [c] is the dataset index [hd + (i*b + c)*h]. *)
Definition table_row (b h hd i : nat) : list nat :=
  (λ c, hd + (i * b + c) * h) <$> seq 0 b.

Definition table_of (n b h : nat) : array2 :=
  Array2 b (concat ((λ hd, table_row b h hd <$> seq 0 (n / h / b)) <$> seq 0 h)).

(** What the constructor establishes. *)
Definition wf (s : Sampler.t) : Prop :=
  0 < Sampler.num_replicas s ∧ 0 < Sampler.batch_size s ∧
  Forall (λ row, length row = Sampler.batch_size s)
         (rows (Sampler.indices_batched s)) ∧
  Sampler.num_samples s
  = ceil_div (shape0 (Sampler.indices_batched s)) (Sampler.num_replicas s)
    * Sampler.batch_size s ∧
  Sampler.total_size s = Sampler.num_samples s * Sampler.num_replicas s.

(** The wraparound prefix is long enough to fill the last stripe. *)
Definition prefix_fits (r nr : nat) : Prop :=
  r mod nr = 0 ∨ nr - r mod nr ≤ r.

(** The generator accepts the seed of the epoch, or none is used. *)
Definition seed_accepted (s : Sampler.t) : Prop :=
  Sampler.shuffle s = true →
  (- 2 ^ 63 ≤ Sampler.seed s + Sampler.epoch s < 2 ^ 64)%Z.

(** The state the reset of lines 221-225 leaves. *)
Definition reset (s : agg) : agg :=
  Agg (-1) [] [] [] [] (complete_infer s) (pbar s) (pbar_update s).

(** The coverage test of lines 418-419. *)
Definition covered (p : list float) : bool := count_above p =? length p.

(** [n] buffers have been appended and the tracked cloud id is [n - 1]
    (so [-1] before the first cloud). *)
Definition in_step (s : agg) (n : nat) : Prop :=
  length (test_probs s) = n ∧ length (test_labels s) = n ∧
  curr_cloud_id s = (Z.of_nat n - 1)%Z.

(** ** Concrete collaborators for the worked examples *)

(** A generator that reverses the natural order. *)
Definition demo_randperm (_ : Z) (n : nat) : list nat := reverse (seq 0 n).

(** A model over numbered batches: every update overwrites each point with
    the same class probabilities and label; [preprocess] supplies no
    projection. *)
Definition demo_model : model_t nat nat unit :=
  Model 2 (λ x, x)
    (λ _ _ probs _, ((λ _, [0.25; 0.75]%float) <$> probs, (λ _, 1%Z) <$> probs))
    (λ _ _, None).

Definition demo_get_data (_ : Z) : unit := tt.

Definition demo_agg : agg := Agg (-1) [] [] [] [] None None None.

(** One cloud of two points, both covered. *)
Definition demo_sampler : sampler_t :=
  SamplerState "test" 0 [[0.75; 1]%float].

(** The same cloud with one point at the threshold, not above it. *)
Definition demo_sampler_half : sampler_t :=
  SamplerState "test" 0 [[0.5; 1]%float].

(** The second of two clouds. *)
Definition demo_sampler_next : sampler_t :=
  SamplerState "test" 1 [[0.75; 1]%float; [0.25]%float].

(** A trainer over numbered batches whose scores are their own shape:
    batch [x] yields scores of shape [(4, x)]; the summary of batch 7
    cannot be built. *)
Definition demo_trainer : trainer_t nat nat nat unit (list nat) nat nat :=
  Trainer (λ _, 0%Z) (λ w x, x) (λ r _, (r, tt, [4; r])) (λ sc, sc)
          (λ _, 0%float) (λ w, w) (λ _ w, S w) (λ _ w, w) (λ w, S w) (λ w, w)
          0 (λ _, 0) (λ m _ _, S m)
          (λ r _ _, if r =? 7 then Err NotImplementedError else Ok tt).

Definition demo_cfg (distributed : bool) : cfg_t :=
  Cfg distributed 0 2 3 3 1 1 [] None.

Definition demo_train : train nat nat := Train 0 [0] [0] [[]] [[]] [].

(** The number of rows the wraparound padding appends (lines 71-73). *)
Definition padding_size (r nr : nat) : nat :=
  if r mod nr =? 0 then 0 else nr - r mod nr.

(** The rows of a table at the given positions, flattened. *)
Definition rows_of (tbl : array2) (idx : list nat) : list nat :=
  concat ((λ i, default [] (rows tbl !! i)) <$> idx).

(** The number of changes of cloud id along a sequence of batches, the
    tracked id being [cur] before the first. *)
Fixpoint switches (cur : Z) (ids : list Z) : nat :=
  match ids with
  | [] => 0
  | c :: t => (if bool_decide (cur ≠ c) then 1 else 0) + switches c t
  end.

(** The calls a validation batch can make. *)
Definition validation_event (e : event) : Prop :=
  e = EvForward ∨ e = EvGetLoss ∨ e = EvSummary "valid".

(** The weights after the backward pass, the optional clipping and the
    optimizer step of one batch (lines 587-596). *)
Definition stepped {Inputs Results Loss Labels Scores Metric Weights : Type}
    (cfg : cfg_t) (tr : trainer_t Inputs Results Loss Labels Scores Metric Weights)
    (loss : Loss) (w : Weights) : Weights :=
  optimizer_step tr
    (if clip_enabled cfg
     then clip_grad_value tr (default (-1)%float (grad_clip_norm cfg))
                          (backward tr loss w)
     else backward tr loss w).

(** The calls the writer received between two states, and a call with its
    [label_to_names] argument dropped. *)
Definition new_calls {Metric Payload Names}
    (s s' : Logs.state Metric Payload Names) : list (Logs.wcall Payload Names) :=
  drop (length (Logs.writer s)) (Logs.writer s').

Definition without_names {Payload Names} (c : Logs.wcall Payload Names)
    : Logs.wcall Payload Names :=
  match c with
  | Logs.Add3d tag d epoch _ => Logs.Add3d tag d epoch None
  | c => c
  end.

(** The number of summary dicts over all stages. *)
Definition summary_entries {Payload Names}
    (sm : list (string * list (string * Logs.summary_dict Payload Names))) : nat :=
  sum_list ((λ st, length st.2) <$> sm).
(** The number of calls that pass label names, and of summary dicts that
    hold a ['label_to_names'] entry. *)
Definition named_call {Payload Names} (c : Logs.wcall Payload Names) : nat :=
  match c with
  | Logs.Add3d _ _ _ (Some _) => 1
  | _ => 0
  end.

Definition named_calls {Payload Names} (cs : list (Logs.wcall Payload Names)) : nat :=
  sum_list (named_call <$> cs).

Definition named_entry {Payload Names}
    (kd : string * Logs.summary_dict Payload Names) : nat :=
  match Logs.label_to_names kd.2 with
  | Some _ => 1
  | None => 0
  end.

Definition named_entries {Payload Names}
    (sm : list (string * list (string * Logs.summary_dict Payload Names))) : nat :=
  sum_list ((λ st, sum_list (named_entry <$> st.2)) <$> sm).

(** ** Further collaborators for the worked examples *)

(** A sampler whose cloud id has no possibility map. *)
Definition demo_sampler_missing : sampler_t :=
  SamplerState "test" 1 [[0.75; 1]%float].

(** [demo_model] with a projection of three points onto the two of the
    cloud. *)
Definition demo_model_proj : model_t nat nat unit :=
  Model 2 (λ x, x)
    (λ _ _ probs _, ((λ _, [0.25; 0.75]%float) <$> probs, (λ _, 1%Z) <$> probs))
    (λ _ _, Some [1; 1; 0]%Z).

(** Two heads, two replicas. *)
Definition demo_cfg_heads : cfg_t := Cfg true 0 2 3 3 2 1 [] None.

(** One process that records the 3D summary of the training stage. *)
Definition demo_cfg_summary : cfg_t := Cfg false 0 2 3 3 1 1 ["train"] None.

(** A pipeline whose metric lists were never filled. *)
Definition demo_train_no_metric : train nat nat := Train 0 [] [] [[]] [[]] [].

(** Checkpoints over numbered state dicts. *)
Definition demo_join (a b : string) : string := a +:+ "/" +:+ b.

(** The latest checkpoint of a run that saves at epoch 7 only. *)
Definition demo_latest (fls : gmap string (Checkpoint.ckpt nat nat nat))
    (dir : string) : option string :=
  match fls !! (dir +:+ "/ckpt_00007.pth") with
  | Some _ => Some (dir +:+ "/ckpt_00007.pth")
  | None => None
  end.

Definition demo_ckpt : Checkpoint.ckpt nat nat nat :=
  Checkpoint.Ckpt (Some 7%Z) (Some 1) (Some 2) (Some 3).

Definition demo_pipeline : Checkpoint.state nat nat nat :=
  Checkpoint.State ∅ 1 (Some (Some 2)) (Some (Some 3)) [].

Definition demo_saved : Checkpoint.state nat nat nat :=
  Checkpoint.State (<[Checkpoint.ckpt_file demo_join "logs" 7 := demo_ckpt]> ∅) 1
    (Some (Some 2)) (Some (Some 3)) [Checkpoint.MakeDir "logs/checkpoint"].

Definition demo_fresh (fls : gmap string (Checkpoint.ckpt nat nat nat))
    (opt : option (option nat)) : Checkpoint.state nat nat nat :=
  Checkpoint.State fls 0 opt (Some (Some 0)) [].

(** Logs over metrics that are their own length, with one summary dict
    and three heads, the first without training metric. *)
Definition demo_logs : Logs.state nat nat nat :=
  Logs.State [0; 2; 3] [1; 1; 1] [[]; []; []] [[]; []; []]
    [("train", [("semantic", Logs.SummaryDict 5 (Some 9))])] [].

Definition demo_acc (_ : nat) : list float := [0.5%float].
Definition demo_mean (_ : list float) : float := 0%float.

(** * Proofs *)

(** ** Tactics *)

(** Runs [update_tests] symbolically in hypothesis [H], one case per
    branch taken. *)
Ltac run_update_tests H :=
  unfold update_tests, start_cloud, complete_cloud, getattr in H;
  cbv [mbind M_bind mret M_ret lift raise get modify] in H;
  repeat (case_match; simplify_eq/=).

(** Runs [update_tests] in the goal up to the completion test. *)
Ltac unfold_update_tests :=
  unfold update_tests, start_cloud, getattr;
  cbv [mbind M_bind mret M_ret lift raise get modify].

(** ** Results: helper lemmas *)

Lemma rmapM_ok {A B} (f : A → result B) (g : A → B) (l : list A) :
  (∀ x, x ∈ l → f x = Ok (g x)) → rmapM f l = Ok (g <$> l).
Proof.
  induction l as [|x t IH]; intros Hf; simpl; [done|].
  rewrite Hf by left. simpl.
  rewrite IH; [done|]. intros y Hy. apply Hf. by right.
Qed.

Lemma rmapM_inv {A B} (f : A → result B) (l : list A) (ys : list B) :
  rmapM f l = Ok ys →
  length ys = length l ∧
  ∀ i x, l !! i = Some x → ∃ y, f x = Ok y ∧ ys !! i = Some y.
Proof.
  revert ys. induction l as [|x t IH]; intros ys; simpl.
  - intros [= <-]. split; [done|]. intros i x Hx. by rewrite lookup_nil in Hx.
  - destruct (f x) as [y|e] eqn:Hfx; simpl; [|done].
    destruct (rmapM f t) as [zs|e] eqn:Ht; simpl; [|done].
    intros [= <-]. destruct (IH zs eq_refl) as [Hlen Hl].
    split; [simpl; by rewrite Hlen|].
    intros [|i] x' Hx'; simpl in *.
    + injection Hx' as <-. eauto.
    + eauto.
Qed.

(** ** Slices, reshaping and concatenation *)

Lemma slice_len_mul (h H m : nat) : h < H → slice_len h H (m * H) = m.
Proof.
  intros Hh. unfold slice_len.
  destruct (Nat.ltb_spec h (m * H)) as [Hlt|Hge].
  - replace (m * H - h + H - 1) with ((H - 1 - h) + m * H) by nia.
    rewrite Nat.div_add by lia. rewrite Nat.div_small by lia. done.
  - destruct m; [done|nia].
Qed.

Lemma slice_step_seq (h H m : nat) :
  h < H → slice_step h H (seq 0 (m * H)) = (λ j, h + j * H) <$> seq 0 m.
Proof.
  intros Hh. unfold slice_step. rewrite length_seq, slice_len_mul by done.
  apply list_fmap_ext. intros i k Hk%lookup_seq. simpl.
  rewrite seq_nth; [done|nia].
Qed.

Lemma take_drop_fmap_seq {A} (f : nat → A) (b i r : nat) :
  i < r →
  take b (drop (i * b) (f <$> seq 0 (r * b))) = (λ c, f (i * b + c)) <$> seq 0 b.
Proof.
  intros Hi. rewrite <- fmap_drop, <- fmap_take, drop_seq, take_seq.
  replace (b `min` (r * b - i * b)) with b by nia.
  replace (0 + i * b) with (i * b + 0) by lia.
  rewrite <- (fmap_add_seq (i * b) 0 b), <- list_fmap_compose. done.
Qed.

Lemma reshape_strided (B H h r : nat) :
  0 < B →
  reshape B ((λ j, h + j * H) <$> seq 0 (r * B)) =
  Ok (Array2 B ((λ i, (λ c, h + (i * B + c) * H) <$> seq 0 B) <$> seq 0 r)).
Proof.
  intros HB. unfold reshape.
  destruct (Nat.eqb_spec B 0) as [|_]; [lia|].
  rewrite length_fmap, length_seq, Nat.Div0.mod_mul, Nat.div_mul by lia. simpl.
  do 2 f_equal. apply list_fmap_ext. intros j i Hi%lookup_seq.
  apply (take_drop_fmap_seq (λ j, h + j * H)). lia.
Qed.

Lemma concatenate_ok (b : nat) (blocks : list array2) :
  blocks ≠ [] → Forall (λ a, ncols a = b) blocks →
  concatenate blocks = Ok (Array2 b (concat (rows <$> blocks))).
Proof.
  intros Hne Hall. destruct blocks as [|a t]; [done|]. unfold concatenate.
  apply Forall_cons in Hall as [Ha Ht].
  assert (forallb (λ b0, ncols b0 =? ncols a) t = true) as ->; [|by rewrite Ha].
  apply forallb_forall. intros x Hx%list_elem_of_In.
  rewrite Forall_forall in Ht. apply Nat.eqb_eq. rewrite Ha. by apply Ht.
Qed.

Lemma init_ok (n b h nr rk : nat) (sh : bool) (sd : Z) :
  0 < nr → 0 < h → 0 < b → n mod h = 0 →
  Sampler.init n b h nr rk sh sd =
  Ok (Sampler.Mk b h nr rk sh sd 0 (table_of n b h)
        (ceil_div (shape0 (table_of n b h)) nr * b)
        (ceil_div (shape0 (table_of n b h)) nr * b * nr)).
Proof.
  intros Hnr Hh Hb Hmod. unfold Sampler.init.
  destruct (Nat.eqb_spec nr 0) as [|_]; [lia|].
  destruct (Nat.eqb_spec h 0) as [|_]; [lia|].
  rewrite length_seq, Hmod. simpl.
  destruct (Nat.eqb_spec b 0) as [|_]; [lia|].
  set (q := n / h). set (r := q / b).
  assert (Hn : n = q * h).
  { pose proof (Nat.div_mod_eq n h). unfold q. lia. }
  assert (Hq : q = r * b + q mod b).
  { pose proof (Nat.div_mod_eq q b). unfold r. lia. }
  assert (Hidx : (if negb (q mod b =? 0)
                  then drop_tail (q mod b * h) (seq 0 n) else seq 0 n)
                 = seq 0 (r * b * h)).
  { destruct (Nat.eqb_spec (q mod b) 0) as [H0|H0]; simpl.
    - f_equal. nia.
    - unfold drop_tail. rewrite length_seq, take_seq. f_equal. nia. }
  rewrite Hidx.
  rewrite (rmapM_ok _ (λ hd, Array2 b (table_row b h hd <$> seq 0 r))).
  2:{ intros hd Hhd%elem_of_seq.
      rewrite slice_step_seq by lia. by apply reshape_strided. }
  simpl. rewrite (concatenate_ok b).
  - simpl. rewrite <- list_fmap_compose. done.
  - destruct h; [lia|done].
  - apply Forall_fmap, Forall_forall. done.
Qed.

(** With a rank below the replica count the base class accepts its
    arguments. *)
Lemma new_init (n b h nr rk : nat) (sh : bool) (sd : Z) :
  rk < nr → Sampler.new n b h nr rk sh sd = Sampler.init n b h nr rk sh sd.
Proof.
  intros Hrk. unfold Sampler.new. by destruct (Nat.leb_spec nr rk); [lia|].
Qed.

Lemma new_rank (n b h nr rk : nat) (sh : bool) (sd : Z) :
  nr ≤ rk → Sampler.new n b h nr rk sh sd = Err ValueError.
Proof.
  intros Hrk. unfold Sampler.new. by destruct (Nat.leb_spec nr rk); [|lia].
Qed.

Lemma concat_blocks_length {A} (f : nat → list A) (r st h : nat) :
  (∀ k, length (f k) = r) → length (concat (f <$> seq st h)) = h * r.
Proof.
  intros Hf. revert st. induction h as [|h IH]; intros st; [done|].
  simpl. rewrite length_app, Hf, IH. lia.
Qed.

Lemma concat_blocks_block {A} (f : nat → list A) (r st h hd : nat) :
  (∀ k, length (f k) = r) → hd < h →
  take r (drop (hd * r) (concat (f <$> seq st h))) = f (st + hd).
Proof.
  intros Hf. revert st hd. induction h as [|h IH]; intros st hd Hhd; [lia|].
  change (seq st (S h)) with (st :: seq (S st) h).
  rewrite fmap_cons. cbn [concat]. destruct hd as [|hd].
  - rewrite Nat.mul_0_l, drop_0, Nat.add_0_r. by rewrite take_app_length'.
  - replace (S hd * r) with (length (f st) + hd * r) by (rewrite Hf; lia).
    rewrite drop_app_add', IH by (done || lia). f_equal. lia.
Qed.

Lemma table_of_block (n b h hd : nat) :
  hd < h →
  take (n / h / b) (drop (hd * (n / h / b)) (rows (table_of n b h)))
  = table_row b h hd <$> seq 0 (n / h / b).
Proof.
  intros Hhd. unfold table_of. simpl.
  apply (concat_blocks_block (λ hd, table_row b h hd <$> seq 0 (n / h / b)));
    [|done].
  intros k. by rewrite length_fmap, length_seq.
Qed.

Lemma table_of_shape0 (n b h : nat) : shape0 (table_of n b h) = h * (n / h / b).
Proof.
  unfold shape0, table_of. simpl. apply concat_blocks_length.
  intros k. by rewrite length_fmap, length_seq.
Qed.

Lemma table_of_row (n b h k : nat) (row : list nat) :
  rows (table_of n b h) !! k = Some row →
  row = table_row b h (k / (n / h / b)) (k mod (n / h / b)) ∧
  k / (n / h / b) < h ∧ 0 < n / h / b.
Proof.
  intros Hrow.
  assert (Hk : k < h * (n / h / b)).
  { rewrite <- table_of_shape0. by apply lookup_lt_Some in Hrow. }
  set (r := n / h / b) in *.
  assert (Hr : 0 < r) by nia.
  assert (Hhd : k / r < h) by (apply Nat.Div0.div_lt_upper_bound; lia).
  split; [|done].
  pose proof (table_of_block n b h (k / r) Hhd) as Hblk. fold r in Hblk.
  assert (Hi : k mod r < r) by (apply Nat.mod_upper_bound; lia).
  assert (Hlk : take r (drop (k / r * r) (rows (table_of n b h))) !! (k mod r)
                = Some row).
  { rewrite lookup_take_lt, lookup_drop by done.
    rewrite <- Hrow. f_equal. pose proof (Nat.div_mod_eq k r). lia. }
  rewrite Hblk, list_lookup_fmap, lookup_seq_lt in Hlk by done.
  simpl in Hlk. by injection Hlk as <-.
Qed.

Lemma table_row_head (b h hd i x : nat) :
  hd < h → x ∈ table_row b h hd i → x mod h = hd.
Proof.
  intros Hhd (c & -> & _)%list_elem_of_fmap.
  rewrite Nat.Div0.mod_add. by apply Nat.mod_small.
Qed.

Lemma table_of_rows_width (n b h : nat) :
  Forall (λ row, length row = b) (rows (table_of n b h)).
Proof.
  apply Forall_lookup. intros k row Hrow.
  apply table_of_row in Hrow as (-> & _). unfold table_row.
  by rewrite length_fmap, length_seq.
Qed.

(** C2.  For [n mod h = 0] and a rank below the replica count the
    constructor builds a table with [b]
    columns and [h * ((n/h)/b)] rows.  Head [hd] owns the strided indices
    [hd, hd+h, hd+2h, ...]; its block of rows, flattened, is that strided
    list without its last [(n/h) mod b] entries; the blocks are stacked in
    ascending head order, so row [k] belongs to head [k / ((n/h)/b)] and
    every entry of a row belongs to the row's head. *)
Theorem partition_table (n b h nr rk : nat) (sh : bool) (sd : Z) :
  0 < h → 0 < b → rk < nr → n mod h = 0 →
  ∃ s, Sampler.new n b h nr rk sh sd = Ok s ∧
    let tbl := Sampler.indices_batched s in
    let r := n / h / b in
    ncols tbl = b ∧
    Forall (λ row, length row = b) (rows tbl) ∧
    shape0 tbl = h * r ∧
    (∀ hd, hd < h →
       slice_step hd h (seq 0 n) = (λ j, hd + j * h) <$> seq 0 (n / h) ∧
       concat (take r (drop (hd * r) (rows tbl)))
       = take (n / h - (n / h) mod b) (slice_step hd h (seq 0 n))) ∧
    (∀ k row x, rows tbl !! k = Some row → x ∈ row → x mod h = k / r).
Proof.
  intros Hh Hb Hrk Hmod. eexists.
  split; [rewrite new_init by done; apply init_ok; [lia|done..]|]. simpl.
  set (q := n / h). set (r := q / b).
  assert (Hn : n = q * h).
  { pose proof (Nat.div_mod_eq n h). unfold q. lia. }
  assert (Hq : q - q mod b = r * b).
  { pose proof (Nat.div_mod_eq q b). unfold r. lia. }
  split; [done|]. split; [apply table_of_rows_width|].
  split; [apply table_of_shape0|]. split.
  - intros hd Hhd.
    assert (Hs : slice_step hd h (seq 0 n) = (λ j, hd + j * h) <$> seq 0 q).
    { rewrite Hn at 1. by apply slice_step_seq. }
    split; [done|].
    rewrite Hs, Hq, <- fmap_take, take_seq.
    replace ((r * b) `min` q) with (r * b) by lia.
    unfold r, q. rewrite table_of_block by done. fold q r.
    clear Hq. induction r as [|r' IH]; [done|].
    rewrite seq_S, fmap_app, concat_app, IH.
    cbn [fmap list_fmap concat]. rewrite app_nil_r.
    replace (S r' * b) with (r' * b + b) by lia.
    rewrite seq_app, fmap_app. f_equal. unfold table_row.
    replace (0 + r' * b) with (r' * b + 0) by lia.
    rewrite <- (fmap_add_seq (r' * b) 0 b), <- list_fmap_compose. done.
  - intros k row x Hrow Hx. apply table_of_row in Hrow as (-> & Hhd & _).
    by apply table_row_head in Hx.
Qed.

Lemma partition_table_witness :
  ∃ s, Sampler.new 12 3 2 2 0 true 0 = Ok s ∧
       rows (Sampler.indices_batched s)
       = [[0; 2; 4]; [6; 8; 10]; [1; 3; 5]; [7; 9; 11]].
Proof.
  destruct (partition_table 12 3 2 2 0 true 0) as (s & Hs & _);
    [lia | lia | lia | reflexivity |].
  exists s. split; [exact Hs|].
  vm_compute in Hs. injection Hs as <-. reflexivity.
Defined.

(** ** Padding, sharding and flattening *)

Lemma init_inv (n b h nr rk : nat) (sh : bool) (sd : Z) (s : Sampler.t) :
  Sampler.init n b h nr rk sh sd = Ok s →
  0 < nr ∧ 0 < h ∧ 0 < b ∧ n mod h = 0.
Proof.
  unfold Sampler.init. rewrite length_seq.
  destruct (Nat.eqb_spec nr 0); [done|].
  destruct (Nat.eqb_spec h 0); [done|].
  destruct (Nat.eqb_spec (n mod h) 0); [|done]. simpl.
  destruct (Nat.eqb_spec b 0); [done|]. intros _. lia.
Qed.

Lemma init_wf (n b h nr rk : nat) (sh : bool) (sd : Z) (s : Sampler.t) :
  Sampler.init n b h nr rk sh sd = Ok s →
  wf s ∧ Sampler.rank s = rk ∧ Sampler.num_replicas s = nr ∧
  Sampler.batch_size s = b ∧ Sampler.indices_batched s = table_of n b h.
Proof.
  intros Hs. pose proof (init_inv _ _ _ _ _ _ _ _ Hs) as (Hnr & Hh & Hb & Hmod).
  rewrite init_ok in Hs by done. injection Hs as <-.
  repeat split; simpl; try done. apply table_of_rows_width.
Qed.

Lemma set_epoch_wf (s : Sampler.t) (e : Z) : wf s → wf (Sampler.set_epoch s e).
Proof. done. Qed.

Lemma init_seed (n b h nr rk : nat) (sh : bool) (sd e : Z) (s : Sampler.t) :
  Sampler.init n b h nr rk sh sd = Ok s →
  Sampler.shuffle (Sampler.set_epoch s e) = sh ∧
  (Sampler.seed (Sampler.set_epoch s e) + Sampler.epoch (Sampler.set_epoch s e)
   = sd + e)%Z.
Proof.
  intros Hs. pose proof (init_inv _ _ _ _ _ _ _ _ Hs) as (Hnr & Hh & Hb & Hmod).
  rewrite init_ok in Hs by done. by injection Hs as <-.
Qed.

Lemma concat_length_uniform {A} (b : nat) (l : list (list A)) :
  Forall (λ row, length row = b) l → length (concat l) = length l * b.
Proof.
  induction 1 as [|row l Hrow _ IH]; [done|].
  simpl. rewrite length_app, Hrow, IH. done.
Qed.

Lemma ceil_div_mul (r nr : nat) :
  0 < nr →
  ceil_div r nr * nr = if r mod nr =? 0 then r else r + (nr - r mod nr).
Proof.
  intros Hnr. unfold ceil_div. pose proof (Nat.div_mod_eq r nr) as Hdm.
  pose proof (Nat.mod_upper_bound r nr ltac:(lia)).
  destruct (Nat.eqb_spec (r mod nr) 0); nia.
Qed.

Section SamplerProofs.

Variable randperm : Z → nat → list nat.
Hypothesis randperm_perm : ∀ sd n, randperm sd n ≡ₚ seq 0 n.

Lemma row_order_perm (s : Sampler.t) :
  Sampler.row_order randperm s ≡ₚ seq 0 (shape0 (Sampler.indices_batched s)).
Proof. unfold Sampler.row_order. by destruct (Sampler.shuffle s). Qed.

Lemma row_order_length (s : Sampler.t) :
  length (Sampler.row_order randperm s) = shape0 (Sampler.indices_batched s).
Proof. by rewrite row_order_perm, length_seq. Qed.

Lemma pad_length (nr : nat) (l : list nat) :
  0 < nr → prefix_fits (length l) nr →
  length (Sampler.pad nr l) = ceil_div (length l) nr * nr.
Proof.
  intros Hnr Hfit. rewrite ceil_div_mul by done. unfold Sampler.pad.
  destruct (Nat.eqb_spec (length l mod nr) 0) as [H0|H0]; simpl; [done|].
  destruct Hfit as [?|Hfit]; [done|].
  rewrite length_app, length_take. lia.
Qed.

Lemma pad_length_short (nr : nat) (l : list nat) :
  0 < nr → ¬ prefix_fits (length l) nr →
  length (Sampler.pad nr l) = 2 * length l ∧ 0 < length l ∧ 2 * length l < nr.
Proof.
  intros Hnr Hfit. unfold prefix_fits in Hfit. unfold Sampler.pad.
  pose proof (Nat.mod_upper_bound (length l) nr ltac:(lia)).
  destruct (Nat.eqb_spec (length l mod nr) 0) as [H0|H0]; simpl; [lia|].
  assert (length l < nr) by lia.
  rewrite Nat.mod_small in * by done.
  rewrite length_app, length_take. lia.
Qed.

Lemma pad_elem (nr : nat) (l : list nat) (x : nat) :
  x ∈ Sampler.pad nr l → x ∈ l.
Proof.
  unfold Sampler.pad. destruct (negb _); [|done].
  intros [?|(i & ?%list_elem_of_lookup_2 & _)%elem_of_take]%elem_of_app; done.
Qed.

Lemma padded_in_range (s : Sampler.t) (i : nat) :
  i < length (Sampler.pad (Sampler.num_replicas s) (Sampler.row_order randperm s)) →
  nth i (Sampler.pad (Sampler.num_replicas s) (Sampler.row_order randperm s)) 0
  < shape0 (Sampler.indices_batched s).
Proof.
  intros Hi.
  assert (Hin : nth i (Sampler.pad (Sampler.num_replicas s)
                         (Sampler.row_order randperm s)) 0
                ∈ Sampler.row_order randperm s).
  { eapply pad_elem. by apply nth_elem_of. }
  revert Hin. generalize (nth i (Sampler.pad (Sampler.num_replicas s)
                                   (Sampler.row_order randperm s)) 0).
  intros x Hin. rewrite row_order_perm in Hin. apply elem_of_seq in Hin. lia.
Qed.

Lemma seed_accepted_ok (s : Sampler.t) :
  seed_accepted s →
  (if Sampler.shuffle s
   then Sampler.manual_seed (Sampler.seed s + Sampler.epoch s) else Ok tt)
  = Ok tt.
Proof.
  unfold seed_accepted, Sampler.manual_seed. destruct (Sampler.shuffle s); [|done].
  intros Hs. specialize (Hs eq_refl).
  destruct (Z.leb_spec (- 2 ^ 63) (Sampler.seed s + Sampler.epoch s)); [|lia].
  destruct (Z.ltb_spec (Sampler.seed s + Sampler.epoch s) (2 ^ 64)); [done|lia].
Qed.

(** With shuffling on, a seed outside the 64-bit range stops [__iter__]
    at the generator. *)
Lemma iter_seed_rejected (s : Sampler.t) :
  ¬ seed_accepted s → Sampler.iter randperm s = Err RuntimeError.
Proof.
  unfold seed_accepted, Sampler.iter, Sampler.manual_seed.
  destruct (Sampler.shuffle s); [|by intros []].
  intros Hs.
  destruct (Z.leb_spec (- 2 ^ 63) (Sampler.seed s + Sampler.epoch s));
    [|done].
  destruct (Z.ltb_spec (Sampler.seed s + Sampler.epoch s) (2 ^ 64)); [|done].
  destruct Hs. intros _. lia.
Qed.

Lemma seed_accepted_dec (s : Sampler.t) : Decision (seed_accepted s).
Proof. unfold seed_accepted. apply _. Defined.

Lemma iter_ok_seed (s : Sampler.t) (l : list nat) :
  Sampler.iter randperm s = Ok l → seed_accepted s.
Proof.
  intros Hit. destruct (seed_accepted_dec s) as [|Hn]; [done|].
  by rewrite (iter_seed_rejected s Hn) in Hit.
Qed.

(** [__iter__] on a constructed sampler: when the wraparound prefix fits,
    it yields the rows at positions [rank], [rank + num_replicas], ... of
    the padded row order, flattened, and that sequence has [num_samples]
    entries; otherwise the first assertion fails. *)
Lemma iter_spec (s : Sampler.t) :
  wf s → Sampler.rank s < Sampler.num_replicas s →
  seed_accepted s →
  let nr := Sampler.num_replicas s in
  let tbl := Sampler.indices_batched s in
  let padded := Sampler.pad nr (Sampler.row_order randperm s) in
  let out := concat ((λ k, default [] (rows tbl !! nth (Sampler.rank s + k * nr) padded 0))
                     <$> seq 0 (length padded / nr)) in
  (prefix_fits (shape0 tbl) nr →
     Sampler.iter randperm s = Ok out ∧ length out = Sampler.num_samples s) ∧
  (¬ prefix_fits (shape0 tbl) nr →
     Sampler.iter randperm s = Err AssertionError).
Proof.
  intros (Hnr & Hb & Hrows & Hns & Hts) Hrk Hseed nr tbl padded out.
  pose proof (row_order_length s) as Hlen. fold tbl in Hlen.
  unfold Sampler.iter. rewrite (seed_accepted_ok s Hseed). cbn [rbind].
  fold nr tbl padded.
  destruct (Nat.eqb_spec nr 0) as [|_]; [lia|]. split.
  - intros Hfit. rewrite <- Hlen in Hfit.
    pose proof (pad_length nr _ Hnr Hfit) as Hpl. fold padded in Hpl.
    rewrite Hlen in Hpl. set (c := ceil_div (shape0 tbl) nr) in *.
    assert (Hdiv : length padded / nr = c) by (rewrite Hpl, Nat.div_mul; lia).
    assert (Hrow : ∀ k, k < c →
      ∃ row, rows tbl !! nth (Sampler.rank s + k * nr) padded 0 = Some row ∧
             length row = Sampler.batch_size s).
    { intros k Hk.
      destruct (lookup_lt_is_Some_2 (rows tbl)
                  (nth (Sampler.rank s + k * nr) padded 0)) as [row Hrow].
      - apply padded_in_range. fold nr padded. rewrite Hpl. nia.
      - exists row. split; [done|]. by eapply (Forall_lookup_1 _ _ _ _ Hrows). }
    assert (Hout : length out = Sampler.num_samples s).
    { unfold out. rewrite (concat_length_uniform (Sampler.batch_size s)).
      - by rewrite length_fmap, length_seq, Hdiv, Hns.
      - apply Forall_fmap, Forall_forall. intros k Hk%elem_of_seq. simpl.
        destruct (Hrow k) as (row & -> & Hw); [lia|done]. }
    split; [|done].
    assert ((length padded * Sampler.batch_size s =? Sampler.total_size s) = true)
      as ->.
    { apply Nat.eqb_eq. rewrite Hts, Hns, Hpl. unfold c, nr, tbl. lia. }
    simpl. unfold slice_step. rewrite Hpl, slice_len_mul by done.
    unfold take_rows.
    rewrite (rmapM_ok _ (λ i, default [] (rows tbl !! i))).
    + simpl. unfold flatten. simpl. rewrite <- list_fmap_compose.
      unfold out in Hout |- *. rewrite Hdiv in Hout |- *. unfold compose.
      rewrite Hout, Nat.eqb_refl. done.
    + intros i (k & -> & Hk%elem_of_seq)%list_elem_of_fmap.
      destruct (Hrow k) as (row & -> & _); [lia|done].
  - intros Hfit. rewrite <- Hlen in Hfit.
    destruct (pad_length_short nr _ Hnr Hfit) as (Hpl & Hpos & Hlt).
    fold padded in Hpl. rewrite Hlen in *.
    assert (Hc : ceil_div (shape0 tbl) nr = 1).
    { unfold ceil_div. rewrite Nat.div_small, Nat.mod_small by lia.
      destruct (Nat.eqb_spec (shape0 tbl) 0); lia. }
    assert ((length padded * Sampler.batch_size s =? Sampler.total_size s) = false)
      as -> by (apply Nat.eqb_neq; rewrite Hts, Hns, Hpl; fold tbl nr; rewrite Hc; nia).
    done.
Qed.

(** C5.  When [__iter__] yields, the rows it selected are the entries
    [rank], [rank + num_replicas], [rank + 2*num_replicas], ... of the
    padded row order, and the yielded sequence is the concatenation of
    those rows, in that order. *)
Theorem iter_striped (n b h nr rk : nat) (sh : bool) (sd e : Z)
    (s : Sampler.t) (l : list nat) :
  Sampler.init n b h nr rk sh sd = Ok s → rk < nr →
  Sampler.iter randperm (Sampler.set_epoch s e) = Ok l →
  let padded := Sampler.pad nr (Sampler.row_order randperm (Sampler.set_epoch s e)) in
  length padded = ceil_div (shape0 (Sampler.indices_batched s)) nr * nr ∧
  l = concat ((λ k, default [] (rows (Sampler.indices_batched s)
                                  !! nth (rk + k * nr) padded 0))
              <$> seq 0 (length padded / nr)).
Proof.
  intros Hs Hrk Hit padded.
  apply init_wf in Hs as (Hwf & Hr & Hn & _).
  pose proof (iter_spec (Sampler.set_epoch s e) (set_epoch_wf s e Hwf)) as Hspec.
  simpl in Hspec. rewrite Hr, Hn in Hspec.
  destruct (Hspec Hrk (iter_ok_seed _ _ Hit)) as [Hfit Hshort].
  fold padded in Hfit.
  destruct (decide (prefix_fits (shape0 (Sampler.indices_batched s)) nr)) as [Hd|Hd].
  - destruct (Hfit Hd) as [Hok _]. rewrite Hok in Hit. injection Hit as <-.
    split; [|done]. unfold padded. rewrite pad_length.
    + by rewrite row_order_length.
    + destruct Hwf as (? & _). lia.
    + by rewrite row_order_length.
  - rewrite (Hshort Hd) in Hit. done.
Qed.

(** X1.  A constructed sampler has
    [num_samples * num_replicas = total_size]; and when the wraparound
    prefix fits, for every epoch whose seed [seed + epoch] the generator
    accepts (a 64-bit value; any epoch when shuffling is off) [__iter__]
    passes both assertions and yields exactly [num_samples] indices. *)
Theorem iter_length (n b h nr rk : nat) (sh : bool) (sd e : Z) (s : Sampler.t) :
  Sampler.init n b h nr rk sh sd = Ok s → rk < nr →
  (sh = true → (- 2 ^ 63 ≤ sd + e < 2 ^ 64)%Z) →
  Sampler.num_samples s * Sampler.num_replicas s = Sampler.total_size s ∧
  (prefix_fits (shape0 (Sampler.indices_batched s)) nr →
   ∃ l, Sampler.iter randperm (Sampler.set_epoch s e) = Ok l ∧
        length l = Sampler.num_samples s).
Proof.
  intros Hs Hrk Hseed. destruct (init_seed _ _ _ _ _ _ _ e _ Hs) as [Hsh Hsd].
  apply init_wf in Hs as (Hwf & Hr & Hn & _).
  split; [by destruct Hwf as (_ & _ & _ & _ & ->)|].
  intros Hfit.
  pose proof (iter_spec (Sampler.set_epoch s e) (set_epoch_wf s e Hwf)) as Hspec.
  simpl in Hspec. rewrite Hr, Hn in Hspec.
  destruct (Hspec Hrk) as [Hok _].
  { unfold seed_accepted. by rewrite Hsh, Hsd. }
  destruct (Hok Hfit) as [-> Hl]. eauto.
Qed.

End SamplerProofs.

(** ** Python subscripts *)

Lemma py_pos_nonneg (n : nat) (i : Z) :
  (0 ≤ i)%Z →
  py_pos n i = if decide (i < Z.of_nat n)%Z then Ok (Z.to_nat i) else Err IndexError.
Proof.
  intros Hi. unfold py_pos.
  destruct (Z.ltb_spec i 0); [lia|].
  destruct (Z.leb_spec 0 i); [|lia]. simpl.
  destruct (Z.ltb_spec i (Z.of_nat n)); case_decide; done || lia.
Qed.

Lemma py_index_nat {A} (l : list A) (i : nat) :
  py_index l (Z.of_nat i) = match l !! i with Some x => Ok x | None => Err IndexError end.
Proof.
  unfold py_index. rewrite py_pos_nonneg by lia. case_decide as Hi; simpl.
  - by rewrite Nat2Z.id.
  - rewrite lookup_ge_None_2; [done|lia].
Qed.

Lemma py_setitem_nat {A} (l : list A) (i : nat) (v : A) :
  py_setitem l (Z.of_nat i) v
  = if decide (i < length l) then Ok (<[i:=v]> l) else Err IndexError.
Proof.
  unfold py_setitem. rewrite py_pos_nonneg by lia.
  repeat case_decide; simpl; try lia; by rewrite ?Nat2Z.id.
Qed.

Lemma py_index_last {A} (l : list A) :
  py_index l (-1) = match last l with Some x => Ok x | None => Err IndexError end.
Proof.
  unfold py_index, py_pos. simpl.
  destruct l as [|x l _] using rev_ind; [done|].
  rewrite last_snoc, length_app. simpl.
  destruct (Z.leb_spec 0 (-1 + Z.of_nat (length l + 1))); [|lia].
  destruct (Z.ltb_spec (-1 + Z.of_nat (length l + 1)) (Z.of_nat (length l + 1))); [|lia].
  simpl. replace (Z.to_nat (-1 + Z.of_nat (length l + 1))) with (length l) by lia.
  by rewrite list_lookup_middle.
Qed.

Lemma rmapM_Forall2 {A B} (f : A → result B) (l : list A) (ys : list B) :
  Forall2 (λ x y, f x = Ok y) l ys → rmapM f l = Ok ys.
Proof. induction 1 as [|x y l ys Hxy _ IH]; simpl; [done|]. by rewrite Hxy, IH. Qed.

(** Gathering through the identity projection changes nothing. *)
Lemma gather_arange {A} (a : list A) : gather a (arange (length a)) = Ok a.
Proof.
  apply rmapM_Forall2, Forall2_same_length_lookup_2.
  - unfold arange. by rewrite length_fmap, length_seq.
  - intros i z y Hz Hy. unfold arange in Hz.
    rewrite list_lookup_fmap in Hz.
    destruct (seq 0 (length a) !! i) as [j|] eqn:Hj; [|done].
    apply lookup_seq in Hj as [-> _]. injection Hz as <-.
    by rewrite py_index_nat, Hy.
Qed.

(** A longer buffer gathered through the identity projection of a shorter
    one is cut to its length. *)
Lemma gather_arange_take {A} (a : list A) (n : nat) :
  n ≤ length a → gather a (arange n) = Ok (take n a).
Proof.
  intros Hn. apply rmapM_Forall2, Forall2_same_length_lookup_2.
  - unfold arange. rewrite length_fmap, length_seq, length_take. lia.
  - intros i z y Hz Hy. unfold arange in Hz.
    rewrite list_lookup_fmap in Hz.
    destruct (seq 0 n !! i) as [j|] eqn:Hj; [|done].
    apply lookup_seq in Hj as [-> Hi]. injection Hz as <-.
    rewrite lookup_take_lt in Hy by done. by rewrite py_index_nat, Hy.
Qed.

(** ** run_inference *)

Section AggregatorProofs.

Context {Inputs Results Data : Type}.
Variable model : model_t Inputs Results Data.
Variable get_data : Z → Data.

(** C9.  [run_inference] returns the raw model output of the first batch
    from inside its loop: [update_tests] is not run (the aggregation state
    is as the reset left it), later batches are not visited, and the
    finalized result is never returned.  With no batch at all the first
    [pop] after the loop raises. *)
Theorem run_inference_returns_first_output (smp : sampler_t)
    (infer_loader : list Inputs) (s : agg) :
  match infer_loader with
  | inputs :: _ =>
      run_inference model get_data smp infer_loader s
      = Return (RawOutput (forward model inputs)) (reset s)
  | [] => run_inference model get_data smp infer_loader s = Raise IndexError (reset s)
  end ∧
  ∀ labels scores s',
    run_inference model get_data smp infer_loader s
    ≠ Return (InferenceResult labels scores) s'.
Proof.
  assert (H : match infer_loader with
    | inputs :: _ =>
        run_inference model get_data smp infer_loader s
        = Return (RawOutput (forward model inputs)) (reset s)
    | [] => run_inference model get_data smp infer_loader s = Raise IndexError (reset s)
    end).
  { destruct infer_loader; reflexivity. }
  split; [done|]. intros labels scores s'.
  destruct infer_loader; rewrite H; done.
Qed.

End AggregatorProofs.

(** ** update_tests *)

Lemma in_test_split (sp : string) :
  bool_decide (sp ∈ ["test"]) = bool_decide (sp = "test").
Proof. apply bool_decide_ext, list_elem_of_singleton. Qed.

Lemma py_pos_lt (n : nat) (i : Z) (j : nat) : py_pos n i = Ok j → j < n.
Proof. unfold py_pos. case_match; [|done]. intros [= <-]. lia. Qed.

Lemma py_index_setitem {A} (l l' : list A) (i : Z) (v : A) :
  py_setitem l i v = Ok l' → py_index l' i = Ok v.
Proof.
  unfold py_setitem, py_index.
  destruct (py_pos (length l) i) as [j|] eqn:Hj; simpl; [|done].
  intros [= <-]. rewrite length_insert, Hj. simpl.
  apply py_pos_lt in Hj. by rewrite list_lookup_insert_eq.
Qed.

Lemma py_setitem_length {A} (l l' : list A) (i : Z) (v : A) :
  py_setitem l i v = Ok l' → length l' = length l.
Proof.
  unfold py_setitem. destruct (py_pos _ _); simpl; [|done].
  intros [= <-]. apply length_insert.
Qed.

Lemma py_index_app_last {A} (l : list A) (x : A) (k : nat) :
  k = length l → py_index (l ++ [x]) (Z.of_nat k) = Ok x.
Proof. intros ->. by rewrite py_index_nat, list_lookup_middle. Qed.

Lemma py_setitem_app_last {A} (l : list A) (x v : A) (k : nat) :
  k = length l → py_setitem (l ++ [x]) (Z.of_nat k) v = Ok (l ++ [v]).
Proof.
  intros ->. rewrite py_setitem_nat, length_app. simpl.
  case_decide; [|lia]. f_equal.
  rewrite insert_app_r_alt, Nat.sub_diag by done. done.
Qed.

Lemma py_index_app_ge {A} (l : list A) (x : A) (k : nat) :
  length l < k → py_index (l ++ [x]) (Z.of_nat k) = Err IndexError.
Proof.
  intros Hk. rewrite py_index_nat, lookup_ge_None_2; [done|].
  rewrite length_app. simpl. lia.
Qed.

(** Full coverage: every possibility entry exceeds the threshold. *)
Lemma covered_all_above (p : list float) :
  covered p = true ↔ Forall (λ w, PrimFloat.ltb end_threshold w = true) p.
Proof.
  unfold covered, count_above. rewrite Nat.eqb_eq.
  induction p as [|w p IH]; [by split|].
  rewrite filter_cons, Forall_cons.
  pose proof (length_filter (λ w, PrimFloat.ltb end_threshold w = true) p).
  destruct (decide (PrimFloat.ltb end_threshold w = true)) as [Hw|Hw]; simpl.
  - rewrite <- IH. split; [intros [=]; done|intros [_ ->]; done].
  - split; [lia|]. by intros [? _].
Qed.

(** The coverage test in words: the entries above 0.5 are as many as the
    points. *)
Lemma covered_count (p : list float) :
  covered p
  = bool_decide (length (filter (λ w, (0.5 <? w)%float = true) p) = length p).
Proof.
  unfold covered, count_above, end_threshold.
  destruct (Nat.eqb_spec (length (filter (λ w, (0.5 <? w)%float = true) p))
              (length p)) as [Heq|Hne].
  - by rewrite bool_decide_eq_true_2.
  - by rewrite bool_decide_eq_false_2.
Qed.

Section UpdateTestsProofs.

Context {Inputs Results Data R : Type}.
Variable model : model_t Inputs Results Data.
Variable get_data : Z → Data.

(** C3.  A call of [update_tests] that returns has performed the
    completion actions (projection resolved, both accumulated buffers
    gathered through it and appended to the original-order lists, flag
    set) exactly when the split is ['test'] and the number of possibility
    entries [w] with [0.5 < w] equals the number of points.  In every
    other case nothing is appended and the flag is not set: it is [False]
    after a change of cloud and keeps its value otherwise. *)
Theorem update_tests_completion (smp : sampler_t) (inp : Inputs) (res : Results)
    (s s' : agg) :
  update_tests model get_data (R:=R) smp inp res s = Normal tt s' →
  ∃ p, py_index (possibilities smp) (cloud_id smp) = Ok p ∧
    if bool_decide (split smp = "test") &&
       bool_decide (length (filter (λ w, (0.5 <? w)%float = true) p) = length p)
    then
      complete_infer s' = Some true ∧
      ∃ probs labels ori_probs ori_labels,
        py_index (test_probs s') (cloud_id smp) = Ok probs ∧
        py_index (test_labels s') (cloud_id smp) = Ok labels ∧
        let proj_inds :=
          default (arange (length probs))
            (preprocess_proj_inds model (get_data (cloud_id smp)) (split smp)) in
        gather probs proj_inds = Ok ori_probs ∧
        gather labels proj_inds = Ok ori_labels ∧
        ori_test_probs s' = ori_test_probs s ++ [ori_probs] ∧
        ori_test_labels s' = ori_test_labels s ++ [ori_labels]
    else
      ori_test_probs s' = ori_test_probs s ∧
      ori_test_labels s' = ori_test_labels s ∧
      complete_infer s' =
        if bool_decide (curr_cloud_id s ≠ cloud_id smp)
        then Some false else complete_infer s.
Proof.
  intros Hrun.
  assert (Hcount : ∀ p,
    bool_decide (split smp = "test") &&
      bool_decide (length (filter (λ w, (0.5 <? w)%float = true) p) = length p)
    = bool_decide (split smp ∈ ["test"]) && (count_above p =? length p)).
  { intros p. by rewrite <- covered_count, <- in_test_split. }
  run_update_tests Hrun.
  all: eexists; (split; [first [reflexivity|eassumption]|]).
  all: rewrite Hcount.
  all: match goal with H : _ && _ = _ |- _ => rewrite H end.
  all: try (repeat split; done).
  all: split; [done|]; do 4 eexists.
  all: try match goal with
       | H : bool_decide (curr_cloud_id _ ≠ _) = false |- _ =>
           apply bool_decide_eq_false, dec_stable in H; rewrite H in *
       end.
  all: do 2 (split; [eassumption|]).
  all: match goal with H : preprocess_proj_inds _ _ _ = _ |- _ => rewrite H end.
  all: simpl; repeat split; eassumption || done.
Qed.

(** C7.  When [preprocess] supplies no ['proj_inds'], completing a cloud
    (test split, every possibility entry above 0.5) whose accumulated
    label buffer is as long as its accumulated probability buffer appends
    these two buffers themselves. *)
Theorem identity_projection (smp : sampler_t) (inp : Inputs) (res : Results)
    (s s' : agg) (p : list float) (probs : list (list float)) (labels : list Z) :
  update_tests model get_data (R:=R) smp inp res s = Normal tt s' →
  split smp = "test" →
  py_index (possibilities smp) (cloud_id smp) = Ok p →
  length (filter (λ w, (0.5 <? w)%float = true) p) = length p →
  preprocess_proj_inds model (get_data (cloud_id smp)) (split smp) = None →
  py_index (test_probs s') (cloud_id smp) = Ok probs →
  py_index (test_labels s') (cloud_id smp) = Ok labels →
  length labels = length probs →
  ori_test_probs s' = ori_test_probs s ++ [probs] ∧
  ori_test_labels s' = ori_test_labels s ++ [labels].
Proof.
  intros Hrun Hsplit Hp Hcount Hproj Hprobs Hlabels Hlen.
  assert (Hcov : covered p = true)
    by (rewrite covered_count; by apply bool_decide_eq_true_2).
  unfold covered in Hcov. clear Hcount.
  run_update_tests Hrun.
  all: try match goal with
       | H : bool_decide (curr_cloud_id _ ≠ _) = false |- _ =>
           apply bool_decide_eq_false, dec_stable in H; rewrite H in *
       end.
  all: try match goal with
       | H : _ && _ = false |- _ =>
           rewrite in_test_split, bool_decide_eq_true_2, Hcov in H by done; done
       end.
  all: repeat match goal with
       | H1 : ?x = Ok _, H2 : ?x = Ok _ |- _ => rewrite H1 in H2; simplify_eq
       end.
  all: try congruence.
  all: match goal with
       | H1 : gather ?a (arange (length ?a)) = Ok ?x,
         H2 : gather ?b (arange (length ?a)) = Ok ?y |- _ =>
           rewrite gather_arange in H1;
           rewrite <- Hlen, gather_arange in H2
       end.
  all: by simplify_eq.
Qed.

(** The completion actions leave the accumulated buffers and the tracked
    cloud id alone, whatever their outcome. *)
Lemma complete_cloud_final (sp : string) (s : agg) :
  let s' := final_state (complete_cloud model get_data (R:=R) sp s) in
  test_probs s' = test_probs s ∧ test_labels s' = test_labels s ∧
  curr_cloud_id s' = curr_cloud_id s.
Proof.
  destruct (complete_cloud _ _ _ _) eqn:Hrun.
  all: unfold complete_cloud in Hrun.
  all: cbv [mbind M_bind mret M_ret lift raise get modify] in Hrun.
  all: repeat (case_match; simplify_eq/=); done.
Qed.

Lemma completion_final (c : bool) (sp : string) (s : agg) :
  let s' := final_state
    ((if c then complete_cloud model get_data (R:=R) sp else mret tt) s) in
  test_probs s' = test_probs s ∧ test_labels s' = test_labels s ∧
  curr_cloud_id s' = curr_cloud_id s.
Proof. destruct c; [apply complete_cloud_final|done]. Qed.

(** C10.  Let [n] buffers have been appended so far and the tracked
    cloud id be [n - 1].  When a new, non-negative cloud id arrives:
    if it is [n], the buffer updated is the one just appended and the
    state is in step again, with [n + 1] buffers; if it is larger, indexing
    raises [IndexError]; if it is smaller, the update goes to the older
    buffer at that position and the buffer just appended is left
    untouched. *)
Theorem cloud_ids_must_be_sequential (smp : sampler_t) (inp : Inputs)
    (res : Results) (s : agg) (n : nat) (p : list float) :
  in_step s n → (0 ≤ cloud_id smp)%Z → cloud_id smp ≠ curr_cloud_id s →
  py_index (possibilities smp) (cloud_id smp) = Ok p →
  let fresh_probs := replicate (length p) (replicate (num_classes model) 0%float) in
  let fresh_labels := replicate (length p) 0%Z in
  let out := update_tests model get_data (R:=R) smp inp res s in
  (cloud_id smp = Z.of_nat n →
     let upd := update_probs model inp res fresh_probs fresh_labels in
     test_probs (final_state out) = test_probs s ++ [upd.1] ∧
     test_labels (final_state out) = test_labels s ++ [upd.2] ∧
     in_step (final_state out) (S n)) ∧
  ((Z.of_nat n < cloud_id smp)%Z → ∃ s1, out = Raise IndexError s1) ∧
  ((cloud_id smp < Z.of_nat n)%Z →
     ∃ old_probs old_labels,
       test_probs s !! Z.to_nat (cloud_id smp) = Some old_probs ∧
       test_labels s !! Z.to_nat (cloud_id smp) = Some old_labels ∧
       let upd := update_probs model inp res old_probs old_labels in
       test_probs (final_state out)
       = <[Z.to_nat (cloud_id smp) := upd.1]> (test_probs s) ++ [fresh_probs] ∧
       test_labels (final_state out)
       = <[Z.to_nat (cloud_id smp) := upd.2]> (test_labels s) ++ [fresh_labels]).
Proof.
  intros (Hlp & Hll & Hcur) Hc Hne Hp fresh_probs fresh_labels out.
  destruct (Z_of_nat_complete _ Hc) as [k Hk].
  assert (Hchg : bool_decide (curr_cloud_id s ≠ cloud_id smp) = true)
    by (apply bool_decide_eq_true; congruence).
  subst out. unfold_update_tests. rewrite Hchg, Hp. cbn. rewrite Hk, Nat2Z.id.
  split; [|split].
  - intros Hn. assert (k = n) as -> by lia.
    rewrite !py_index_app_last, !py_setitem_app_last by done. cbn.
    match goal with |- context [final_state ((if ?c then _ else _) ?s1)] =>
      destruct (completion_final c (split smp) s1) as (Hfp & Hfl & Hcur') end.
    cbv [mret M_ret] in Hfp, Hfl, Hcur'. rewrite Hfp, Hfl.
    split; [done|]. split; [done|]. cbn in Hcur'.
    unfold in_step. rewrite Hfp, Hfl, Hcur'. cbn. rewrite !length_app. simpl. lia.
  - intros Hn. rewrite py_index_app_ge by lia. cbn. eauto.
  - intros Hn.
    destruct (lookup_lt_is_Some_2 (test_probs s) k) as [old_probs Hop]; [lia|].
    destruct (lookup_lt_is_Some_2 (test_labels s) k) as [old_labels Hol]; [lia|].
    exists old_probs, old_labels. do 2 (split; [done|]).
    rewrite !py_index_nat, !lookup_app_l, Hop, Hol by lia.
    cbn -[py_setitem]. rewrite !py_setitem_nat, !length_app. cbn.
    destruct (decide (k < length (test_probs s) + 1)); [|lia].
    destruct (decide (k < length (test_labels s) + 1)); [|lia]. cbn.
    match goal with |- context [final_state ((if ?c then _ else _) ?s1)] =>
      destruct (completion_final c (split smp) s1) as (Hfp & Hfl & _) end.
    cbv [mret M_ret] in Hfp, Hfl. rewrite Hfp, Hfl.
    cbn. rewrite !insert_app_l by lia. done.
Qed.

(** On any other split than ['test'] a call never sets the completion
    flag, whatever the coverage and whatever its outcome. *)
Lemma other_split_never_complete (smp : sampler_t) (inp : Inputs) (res : Results)
    (s : agg) :
  split smp ≠ "test" → complete_infer s ≠ Some true →
  complete_infer (final_state (update_tests model get_data (R:=R) smp inp res s))
  ≠ Some true.
Proof.
  intros Hsplit Hflag.
  assert (Hb : bool_decide (split smp ∈ ["test"]) = false)
    by (rewrite in_test_split; by apply bool_decide_eq_false).
  destruct (update_tests _ _ _ _ _ _) eqn:Hrun; run_update_tests Hrun.
  all: try done.
  all: rewrite Hb in *; done.
Qed.

(** Further batches of the tracked cloud keep the state in step. *)
Lemma same_cloud_in_step (smp : sampler_t) (inp : Inputs) (res : Results)
    (s : agg) (n : nat) :
  in_step s n → cloud_id smp = curr_cloud_id s →
  in_step (final_state (update_tests model get_data (R:=R) smp inp res s)) n.
Proof.
  intros (Hlp & Hll & Hcur) Hc.
  assert (Hchg : bool_decide (curr_cloud_id s ≠ cloud_id smp) = false)
    by (apply bool_decide_eq_false; congruence).
  destruct (update_tests _ _ _ _ _ _) eqn:Hrun; run_update_tests Hrun.
  all: repeat match goal with
       | H : py_setitem _ _ _ = Ok _ |- _ => apply py_setitem_length in H
       end.
  all: unfold in_step; simpl; repeat split; congruence.
Qed.

End UpdateTestsProofs.

(** ** run_train *)

Section TrainingProofs.

Context {Inputs Results Loss Labels Scores Metric Weights : Type}.
Variable cfg : cfg_t.
Variable tr : trainer_t Inputs Results Loss Labels Scores Metric Weights.

(** C6.  A training batch whose prediction scores have a last dimension
    of size zero ends in [continue] right after the loss computation: the
    only calls made are [zero_grad], the forward pass and [get_loss]; there
    is no backward pass, clipping, optimizer step, metric update, loss
    record, summary or barrier; and the loop goes on with the next batch. *)
Theorem degenerate_batch_skipped (epoch : Z) (inputs : Inputs)
    (s : train Metric Weights) :
  let w := zero_grad tr (weights s) in
  let predict_scores := (get_loss tr (model_call tr w inputs) inputs).2 in
  last (size tr predict_scores) = Some 0 →
  ∃ s',
    (∀ n, train_batch cfg tr epoch n inputs s = Continue s') ∧
    events s' = events s ++ [EvZeroGrad; EvForward; EvGetLoss] ∧
    weights s' = w ∧
    metric_train s' = metric_train s ∧ losses s' = losses s ∧
    metric_val s' = metric_val s ∧ valid_losses s' = valid_losses s ∧
    ∀ (progress_n : nat → nat) (i : nat) (rest : list (nat * Inputs)),
      let body := λ '(j, x), train_batch cfg tr epoch (progress_n j) x in
      for_each ((i, inputs) :: rest) body s = for_each rest body s'.
Proof.
  intros w predict_scores Hlast.
  assert (Hrun : ∀ n, train_batch cfg tr epoch n inputs s
    = Continue (emit EvGetLoss (emit EvForward (emit EvZeroGrad (set_weights w s))))).
  { intros n. unfold train_batch.
    cbv [mbind M_bind mret M_ret lift raise get modify continue_]. cbn.
    fold w. subst predict_scores.
    destruct (get_loss tr (model_call tr w inputs) inputs) as [[loss gt] ps].
    cbn in *. by rewrite py_index_last, Hlast. }
  eexists. split; [exact Hrun|]. cbn. rewrite <- !app_assoc.
  repeat split; try done.
  intros progress_n i rest. cbn. by rewrite Hrun.
Qed.

(** The validation loop skips such a batch in the same way. *)
Lemma degenerate_valid_batch_skipped (epoch : Z) (step : nat) (inputs : Inputs)
    (s : train Metric Weights) :
  let predict_scores := (get_loss tr (model_call tr (weights s) inputs) inputs).2 in
  last (size tr predict_scores) = Some 0 →
  valid_batch cfg tr epoch step inputs s
  = Continue (emit EvGetLoss (emit EvForward s)).
Proof.
  intros predict_scores Hlast. unfold valid_batch.
  cbv [mbind M_bind mret M_ret lift raise get modify continue_]. cbn.
  subst predict_scores.
  destruct (get_loss tr (model_call tr (weights s) inputs) inputs) as [[loss gt] ps].
  cbn in *. by rewrite py_index_last, Hlast.
Qed.

Variable train_loader valid_loader : Z → list Inputs.
Variable progress_n : nat → nat.

(** The distributed check taken by itself: entered with distributed
    training requested and one of the two samplers set, it raises
    [NotImplementedError] with the state unchanged. *)
Lemma distributed_with_sampler_raises (len_train len_valid : nat) (start_ep : Z)
    (train_sampler valid_sampler : option sampler_obj) (s : train Metric Weights) :
  distributed cfg = true →
  train_sampler ≠ None ∨ valid_sampler ≠ None →
  run_train_from_check cfg tr train_loader valid_loader progress_n
    len_train len_valid start_ep train_sampler valid_sampler s
  = Raise NotImplementedError s.
Proof.
  intros Hd Hs. unfold run_train_from_check, distributed_check.
  cbv [mbind M_bind mret M_ret lift raise get modify]. rewrite Hd.
  assert (bool_decide (train_sampler ≠ None) || bool_decide (valid_sampler ≠ None)
          = true) as ->; [|done].
  apply orb_true_iff. destruct Hs; [left|right]; by apply bool_decide_eq_true.
Qed.

(** In [run_train] itself both samplers are [None] when the check is
    reached (lines 470 and 473), so that no run enters it with a sampler
    set. *)
Lemma run_train_reaches_check_unset (len_train len_valid : nat) (start_ep : Z)
    (s : train Metric Weights) :
  ∃ s1,
    events s1 = events s ++ [EvTorchDataloader "train"; EvTorchDataloader "val"] ∧
    run_train cfg tr train_loader valid_loader progress_n len_train len_valid start_ep s
    = run_train_from_check cfg tr train_loader valid_loader progress_n
        len_train len_valid start_ep None None s1.
Proof.
  exists (emit (EvTorchDataloader "val") (emit (EvTorchDataloader "train")
    (set_metric_val (replicate (num_heads cfg) (new_metric tr))
      (set_metric_train (replicate (num_heads cfg) (new_metric tr)) s)))).
  split; [|reflexivity]. cbn. by rewrite <- app_assoc.
Qed.

End TrainingProofs.

(** ** Worked examples *)

Lemma demo_randperm_perm (sd : Z) (n : nat) : demo_randperm sd n ≡ₚ seq 0 n.
Proof. apply reverse_Permutation. Qed.

Lemma iter_striped_witness :
  ∃ s l,
    Sampler.init 14 3 2 3 1 true 0 = Ok s ∧
    Sampler.iter demo_randperm (Sampler.set_epoch s 4) = Ok l ∧
    Sampler.pad 3 (Sampler.row_order demo_randperm (Sampler.set_epoch s 4))
    = [3; 2; 1; 0; 3; 2] ∧
    l = [1; 3; 5; 7; 9; 11].
Proof.
  eexists _, _. split; [vm_compute; reflexivity|].
  split; [vm_compute; reflexivity|]. split; [vm_compute; reflexivity|].
  edestruct (iter_striped demo_randperm demo_randperm_perm 14 3 2 3 1 true 0 4)
    as [_ ->]; [vm_compute; reflexivity | lia | vm_compute; reflexivity |].
  vm_compute. reflexivity.
Defined.

Lemma iter_length_witness :
  ∃ s l,
    Sampler.init 14 3 2 3 1 true 0 = Ok s ∧
    Sampler.iter demo_randperm (Sampler.set_epoch s 4) = Ok l ∧
    length l = Sampler.num_samples s.
Proof.
  eexists _, _. split; [vm_compute; reflexivity|].
  split; [vm_compute; reflexivity|].
  destruct (iter_length demo_randperm demo_randperm_perm 14 3 2 3 1 true 0 4 _
              eq_refl ltac:(lia) ltac:(lia)) as [_ Hlen].
  destruct Hlen as (l & Hl & Hlen); [right; vm_compute; lia|].
  vm_compute in Hl. injection Hl as <-. reflexivity.
Defined.

(** C1, failing input.  One sample, one head, batch size one, three
    replicas: the table has one row, the padding should add two rows but
    the prefix [indices[:2]] has only one, so the padded order has two
    entries instead of three and the first assertion of [__iter__]
    fails. *)
Theorem iter_short_prefix_assertion_fails :
  ∃ s,
    Sampler.init 1 1 1 3 0 true 0 = Ok s ∧
    shape0 (Sampler.indices_batched s) = 1 ∧
    Sampler.total_size s = 3 ∧
    Sampler.pad 3 (Sampler.row_order demo_randperm s) = [0; 0] ∧
    Sampler.iter demo_randperm s = Err AssertionError.
Proof. eexists. split; [vm_compute; reflexivity|]. repeat split. Qed.

Lemma update_tests_completion_witness :
  (∃ s',
     update_tests demo_model demo_get_data (R:=unit) demo_sampler 0 0 demo_agg
     = Normal tt s' ∧
     complete_infer s' = Some true ∧ ori_test_labels s' = [[1; 1]%Z]) ∧
  (∃ s',
     update_tests demo_model demo_get_data (R:=unit) demo_sampler_half 0 0 demo_agg
     = Normal tt s' ∧
     complete_infer s' = Some false ∧ ori_test_labels s' = []).
Proof.
  split.
  - eexists. split; [vm_compute; reflexivity|].
    destruct (update_tests_completion demo_model demo_get_data (R:=unit)
                demo_sampler 0 0 demo_agg _ eq_refl) as (p & Hp & Hc).
    vm_compute in Hp. injection Hp as <-.
    destruct Hc as (Hflag & _). split; [exact Hflag|reflexivity].
  - eexists. split; [vm_compute; reflexivity|].
    destruct (update_tests_completion demo_model demo_get_data (R:=unit)
                demo_sampler_half 0 0 demo_agg _ eq_refl) as (p & Hp & Hc).
    vm_compute in Hp. injection Hp as <-.
    destruct Hc as (_ & Hl & Hflag). split; [exact Hflag|exact Hl].
Defined.

Lemma identity_projection_witness :
  ∃ s',
    update_tests demo_model demo_get_data (R:=unit) demo_sampler 0 0 demo_agg
    = Normal tt s' ∧
    py_index (test_probs s') 0 = Ok [[0.25; 0.75]; [0.25; 0.75]]%float ∧
    py_index (test_labels s') 0 = Ok [1; 1]%Z ∧
    ori_test_probs s' = [[[0.25; 0.75]; [0.25; 0.75]]%float] ∧
    ori_test_labels s' = [[1; 1]%Z].
Proof.
  eexists. split; [vm_compute; reflexivity|].
  split; [reflexivity|]. split; [reflexivity|].
  apply (identity_projection demo_model demo_get_data (R:=unit)
           demo_sampler 0 0 demo_agg _ [0.75; 1]%float); reflexivity.
Defined.

Lemma cloud_ids_must_be_sequential_witness :
  in_step
    (final_state
       (update_tests demo_model demo_get_data (R:=unit) demo_sampler_next 1 1
          (final_state
             (update_tests demo_model demo_get_data (R:=unit) demo_sampler 0 0
                demo_agg)))) 2.
Proof.
  apply (cloud_ids_must_be_sequential demo_model demo_get_data (R:=unit)
           demo_sampler_next 1 1 _ 1 [0.25]%float).
  - vm_compute. repeat split.
  - simpl. lia.
  - vm_compute. discriminate.
  - reflexivity.
  - reflexivity.
Defined.

Lemma degenerate_batch_skipped_witness :
  ∃ s',
    train_batch (demo_cfg false) demo_trainer 1 0 0 demo_train = Continue s' ∧
    events s' = [EvZeroGrad; EvForward; EvGetLoss] ∧
    losses s' = [[]] ∧ weights s' = 0.
Proof.
  destruct (degenerate_batch_skipped (demo_cfg false) demo_trainer 1 0 demo_train)
    as (s' & Hrun & Hev & Hw & _ & Hl & _); [reflexivity|].
  exists s'. split; [apply Hrun|]. split; [exact Hev|]. split; [exact Hl|exact Hw].
Defined.

(** A batch with a non-empty score dimension goes through the whole
    step. *)
Example regular_batch_steps :
  ∃ s',
    train_batch (demo_cfg false) demo_trainer 1 0 5 demo_train = Normal tt s' ∧
    events s' = [EvZeroGrad; EvForward; EvGetLoss; EvBackward; EvOptimizerStep;
                 EvSetDescription] ∧
    losses s' = [[0%float]] ∧ metric_train s' = [1] ∧ weights s' = 2.
Proof. eexists. split; [vm_compute; reflexivity|]. repeat split. Qed.

(** The scenario of three table rows on two replicas: one row is
    duplicated by the padding and each replica yields six indices. *)
Example odd_rows_two_replicas :
  ∃ s,
    Sampler.init 9 3 1 2 0 false 0 = Ok s ∧
    Sampler.num_samples s = 6 ∧ Sampler.total_size s = 12 ∧
    Sampler.pad 2 (Sampler.row_order demo_randperm s) = [0; 1; 2; 0] ∧
    Sampler.iter demo_randperm s = Ok [0; 1; 2; 6; 7; 8].
Proof. eexists. split; [vm_compute; reflexivity|]. repeat split. Qed.

(** * Further properties of the sampler *)

Lemma concat_concat {A} (ll : list (list (list A))) :
  concat (concat ll) = concat ((λ l, concat l) <$> ll).
Proof.
  induction ll as [|l ll IH]; [done|]. simpl. by rewrite concat_app, IH.
Qed.

Lemma concat_Permutation {A} (l k : list (list A)) :
  l ≡ₚ k → concat l ≡ₚ concat k.
Proof.
  induction 1 as [|x l k _ IH|x y l|l1 l2 l3 _ IH1 _ IH2]; simpl.
  - done.
  - by rewrite IH.
  - rewrite !app_assoc. f_equiv. apply Permutation_app_comm.
  - by rewrite IH1.
Qed.

Lemma elem_of_concat_blocks {A} (f : nat → list A) (st n : nat) (x : A) :
  x ∈ concat (f <$> seq st n) ↔ ∃ k, st ≤ k < st + n ∧ x ∈ f k.
Proof.
  revert st. induction n as [|n IH]; intros st; simpl.
  - split; [by intros ?%elem_of_nil|]. intros (k & ? & _). lia.
  - rewrite elem_of_app, IH. split.
    + intros [Hx|(k & Hk & Hx)]; [exists st|exists k]; split; done || lia.
    + intros (k & Hk & Hx). destruct (decide (k = st)) as [->|]; [by left|].
      right. exists k. split; done || lia.
Qed.

Lemma NoDup_concat_blocks {A} (f : nat → list A) (st n : nat) :
  (∀ k, NoDup (f k)) →
  (∀ k1 k2 x, k1 < k2 < st + n → x ∈ f k1 → x ∉ f k2) →
  NoDup (concat (f <$> seq st n)).
Proof.
  intros Hnd. revert st. induction n as [|n IH]; intros st Hdisj; simpl.
  - constructor.
  - apply NoDup_app. split; [done|]. split.
    + intros x Hx (k & Hk & Hxk)%elem_of_concat_blocks.
      apply (Hdisj st k x); done || lia.
    + apply IH. intros k1 k2 x Hk. apply Hdisj. lia.
Qed.

(** The rows of one head, flattened: the head's strided indices. *)
Lemma head_block_flat (b h hd r : nat) :
  concat (table_row b h hd <$> seq 0 r) = (λ j, hd + j * h) <$> seq 0 (r * b).
Proof.
  induction r as [|r IH]; [done|].
  rewrite seq_S, fmap_app, concat_app, IH.
  cbn [fmap list_fmap concat]. rewrite app_nil_r.
  replace (S r * b) with (r * b + b) by lia.
  rewrite seq_app, fmap_app. f_equal. unfold table_row.
  replace (0 + r * b) with (r * b + 0) by lia.
  rewrite <- (fmap_add_seq (r * b) 0 b), <- list_fmap_compose. done.
Qed.

(** The whole table, flattened. *)
Lemma flatten_table_of (n b h : nat) :
  flatten (table_of n b h)
  = concat ((λ hd, (λ j, hd + j * h) <$> seq 0 (n / h / b * b)) <$> seq 0 h).
Proof.
  unfold flatten, table_of. simpl.
  rewrite concat_concat, <- list_fmap_compose. f_equal.
  apply list_fmap_ext. intros _ hd _. simpl. apply head_block_flat.
Qed.

Lemma elem_of_flatten_table_of (n b h x : nat) :
  x ∈ flatten (table_of n b h) ↔
  ∃ hd j, hd < h ∧ j < n / h / b * b ∧ x = hd + j * h.
Proof.
  rewrite flatten_table_of, elem_of_concat_blocks. split.
  - intros (hd & Hhd & (j & -> & Hj%elem_of_seq)%list_elem_of_fmap).
    exists hd, j. repeat split; lia.
  - intros (hd & j & Hhd & Hj & ->). exists hd. split; [lia|].
    apply list_elem_of_fmap. exists j. split; [done|]. apply elem_of_seq. lia.
Qed.

(** X3.  The table never holds a dataset index twice, holds only indices
    of the dataset, and holds all of them but the
    [((n/h) mod b) * h] dropped ones. *)
Theorem table_entries_distinct (n b h nr rk : nat) (sh : bool) (sd : Z)
    (s : Sampler.t) :
  Sampler.init n b h nr rk sh sd = Ok s →
  let flat := flatten (Sampler.indices_batched s) in
  NoDup flat ∧ (∀ x, x ∈ flat → x < n) ∧
  length flat = n - (n / h) mod b * h.
Proof.
  intros Hs. pose proof (init_inv _ _ _ _ _ _ _ _ Hs) as (Hnr & Hh & Hb & Hmod).
  apply init_wf in Hs as (_ & _ & _ & _ & ->). simpl.
  set (q := n / h). set (r := q / b).
  assert (Hn : n = q * h).
  { pose proof (Nat.div_mod_eq n h). unfold q. lia. }
  assert (Hq : q = r * b + q mod b).
  { pose proof (Nat.div_mod_eq q b). unfold r. lia. }
  split; [|split].
  - rewrite flatten_table_of. fold q r. apply NoDup_concat_blocks.
    + intros hd. apply NoDup_fmap_2_strong; [|apply NoDup_seq].
      intros j1 j2 _ _ Heq. nia.
    + intros hd1 hd2 x Hlt (j1 & -> & _)%list_elem_of_fmap
        (j2 & Heq & _)%list_elem_of_fmap.
      assert ((hd1 + j1 * h) mod h = (hd2 + j2 * h) mod h) as Hm by by rewrite Heq.
      rewrite !Nat.Div0.mod_add, !Nat.mod_small in Hm by lia. lia.
  - intros x (hd & j & Hhd & Hj & ->)%elem_of_flatten_table_of. fold q r in Hj. nia.
  - rewrite flatten_table_of. fold q r.
    rewrite (concat_blocks_length _ (r * b)).
    + nia.
    + intros k. by rewrite length_fmap, length_seq.
Qed.

(** X4.  With positive head count and batch size, constructing a
    sampler with the replica count and the rank given fails exactly when
    the rank is not below the replica count, with [ValueError] from the
    base class, or else when the dataset size is no multiple of the head
    count, by the assertion; otherwise it succeeds (the reshape of a
    head's indices never fails). *)
Theorem init_rejects_indivisible (n b h nr rk : nat) (sh : bool) (sd : Z) :
  0 < h → 0 < b →
  if decide (nr ≤ rk) then Sampler.new n b h nr rk sh sd = Err ValueError
  else if decide (n mod h = 0)
  then ∃ s, Sampler.new n b h nr rk sh sd = Ok s ∧
            Sampler.num_samples s * nr = Sampler.total_size s
  else Sampler.new n b h nr rk sh sd = Err AssertionError.
Proof.
  intros Hh Hb. case_decide as Hrk; [by apply new_rank|].
  rewrite new_init by lia. case_decide as Hmod.
  - rewrite init_ok by (done || lia). eexists. split; [done|]. simpl. lia.
  - unfold Sampler.init. rewrite length_seq.
    destruct (Nat.eqb_spec nr 0); [lia|].
    destruct (Nat.eqb_spec h 0); [lia|].
    destruct (Nat.eqb_spec (n mod h) 0); done.
Qed.

Lemma init_rejects_indivisible_witness :
  (∃ s, Sampler.new 12 3 2 2 0 true 0 = Ok s ∧
        Sampler.num_samples s * 2 = Sampler.total_size s) ∧
  Sampler.new 13 3 2 2 0 true 0 = Err AssertionError ∧
  Sampler.new 13 3 2 3 3 true 0 = Err ValueError ∧
  Sampler.new 12 3 2 0 0 true 0 = Err ValueError.
Proof.
  split; [|split; [|split]].
  - apply (init_rejects_indivisible 12 3 2 2 0 true 0); lia.
  - apply (init_rejects_indivisible 13 3 2 2 0 true 0); lia.
  - apply (init_rejects_indivisible 13 3 2 3 3 true 0); lia.
  - apply (init_rejects_indivisible 12 3 2 0 0 true 0); lia.
Defined.

Lemma prefix_fits_dec (r nr : nat) : Decision (prefix_fits r nr).
Proof. unfold prefix_fits. apply _. Defined.


(** The batch [k] of a flat sequence of uniform rows is its row [k]. *)
Lemma concat_uniform_chunk {A} (b k : nat) (rs : list (list A)) :
  Forall (λ row, length row = b) rs →
  take b (drop (k * b) (concat rs)) = default [] (rs !! k).
Proof.
  intros Hrs. revert k. induction Hrs as [|row rs Hrow _ IH]; intros k.
  - cbn [concat]. by rewrite drop_nil, take_nil, lookup_nil.
  - cbn [concat]. destruct k as [|k].
    + rewrite Nat.mul_0_l, drop_0. by rewrite take_app_length'.
    + replace (S k * b) with (length row + k * b) by lia.
      rewrite drop_app_add'; [apply IH|done].
Qed.

Lemma concat_fmap_cons_Permutation {A B} (a : B → A) (g : B → list A) (rs : list B) :
  concat ((λ r, a r :: g r) <$> rs) ≡ₚ (a <$> rs) ++ concat (g <$> rs).
Proof.
  induction rs as [|r rs IH]; [done|]. cbn [fmap list_fmap concat].
  rewrite IH. simpl. f_equiv. apply Permutation_app_swap_app.
Qed.

(** Reading a list of [c * nr] entries stripe by stripe (the entries
    [rk], [rk + nr], ... for each [rk]) visits every position once. *)
Lemma stripes_Permutation (nr c : nat) (l : list nat) :
  0 < nr → length l = c * nr →
  concat ((λ rk, (λ k, nth (rk + k * nr) l 0) <$> seq 0 c) <$> seq 0 nr) ≡ₚ l.
Proof.
  intros Hnr. revert l. induction c as [|c IH]; intros l Hl.
  - destruct l; [|done]. simpl. clear. generalize 0.
    induction nr as [|nr IH]; intros st; [done|]. simpl. apply IH.
  - transitivity (take nr l ++ drop nr l); [|by rewrite take_drop].
    rewrite <- (IH (drop nr l)) by (rewrite length_drop; lia).
    assert (Hfirst : (λ rk, nth rk l 0) <$> seq 0 nr = take nr l).
    { apply list_eq. intros i. rewrite list_lookup_fmap.
      destruct (decide (i < nr)) as [Hi|Hi].
      - rewrite lookup_seq_lt, lookup_take_lt by done. simpl.
        destruct (nth_lookup_or_length l i 0) as [->|]; [done|lia].
      - rewrite lookup_seq_ge, lookup_take_ge by lia. done. }
    rewrite <- Hfirst, <- concat_fmap_cons_Permutation.
    match goal with |- ?x ≡ₚ ?y => assert (x = y) as ->; [|done] end.
    f_equal. apply list_fmap_ext. intros _ rk _.
    cbn [seq fmap list_fmap]. rewrite Nat.mul_0_l, Nat.add_0_r. f_equal.
    rewrite <- (fmap_S_seq 0 c), <- list_fmap_compose.
    apply list_fmap_ext. intros _ k _. simpl.
    rewrite !nth_lookup, lookup_drop. do 2 f_equal. lia.
Qed.

Section SamplerExtras.

Variable randperm : Z → nat → list nat.
Hypothesis randperm_perm : ∀ sd n, randperm sd n ≡ₚ seq 0 n.


(** X6.  What [__iter__] yields splits into consecutive batches of
    [batch_size] indices, and the indices of one batch all belong to the
    same head. *)
Theorem yielded_batches_homogeneous (n b h nr rk : nat) (sh : bool) (sd e : Z)
    (s : Sampler.t) (l : list nat) :
  Sampler.init n b h nr rk sh sd = Ok s → rk < nr →
  Sampler.iter randperm (Sampler.set_epoch s e) = Ok l →
  length l mod b = 0 ∧
  ∀ k x y, x ∈ take b (drop (k * b) l) → y ∈ take b (drop (k * b) l) →
           x mod h = y mod h.
Proof.
  intros Hs Hrk Hit.
  pose proof (init_inv _ _ _ _ _ _ _ _ Hs) as (Hnr & Hh & Hb & Hmod).
  apply init_wf in Hs as (Hwf & Hr & Hn & Hbs & Htbl).
  pose proof (iter_spec randperm randperm_perm (Sampler.set_epoch s e)
                (set_epoch_wf s e Hwf)) as Hspec.
  simpl in Hspec. rewrite Hr, Hn in Hspec.
  destruct (Hspec Hrk (iter_ok_seed randperm _ _ Hit)) as [Hfit Hshort].
  destruct (prefix_fits_dec (shape0 (Sampler.indices_batched s)) nr) as [Hd|Hd];
    [|by rewrite (Hshort Hd) in Hit].
  destruct (Hfit Hd) as [Hok Hlen]. rewrite Hok in Hit. injection Hit as <-.
  split.
  { rewrite Hlen. destruct Hwf as (_ & _ & _ & -> & _).
    rewrite Hbs. apply Nat.Div0.mod_mul. }
  intros k x y.
  assert (Hrows : Forall (λ row, length row = b ∧ ∀ x y, x ∈ row → y ∈ row →
                                   x mod h = y mod h)
            ((λ k, default [] (rows (Sampler.indices_batched s)
               !! nth (rk + k * nr)
                    (Sampler.pad nr (Sampler.row_order randperm
                                       (Sampler.set_epoch s e))) 0))
             <$> seq 0 (length (Sampler.pad nr (Sampler.row_order randperm
                                  (Sampler.set_epoch s e))) / nr))).
  { apply Forall_fmap, Forall_forall. intros j Hj%elem_of_seq. simpl.
    destruct (rows (Sampler.indices_batched s) !! _) as [row|] eqn:Hrow.
    - simpl. rewrite Htbl in Hrow.
      pose proof (table_of_row _ _ _ _ _ Hrow) as (-> & Hhd & _). split.
      + unfold table_row. by rewrite length_fmap, length_seq.
      + intros x' y' Hx' Hy'. apply table_row_head in Hx', Hy'; congruence.
    - exfalso. apply lookup_ge_None in Hrow.
      pose proof (padded_in_range randperm randperm_perm (Sampler.set_epoch s e)
                    (rk + j * nr)) as Hin.
      simpl in Hin. rewrite Hn in Hin. unfold shape0 in Hin.
      assert (Hpl : length (Sampler.pad nr (Sampler.row_order randperm
                              (Sampler.set_epoch s e)))
                    = ceil_div (shape0 (Sampler.indices_batched s)) nr * nr).
      { rewrite pad_length; rewrite ?row_order_length; done. }
      rewrite Hpl, Nat.div_mul in Hj by lia.
      specialize (Hin ltac:(rewrite Hpl; nia)). lia. }
  rewrite concat_uniform_chunk.
  2:{ eapply Forall_impl; [exact Hrows|]. by intros ? [? _]. }
  destruct (_ !! k) as [row|] eqn:Hk; simpl; [|by intros ?%elem_of_nil].
  eapply Forall_lookup_1 in Hrows as [_ Hhom]; [|exact Hk]. apply Hhom.
Qed.

Lemma concat_fmap_concat {A B C} (f : B → list A) (g : C → list B) (rs : list C) :
  concat ((λ r, concat (f <$> g r)) <$> rs) = concat (f <$> concat (g <$> rs)).
Proof.
  induction rs as [|r rs IH]; [done|]. cbn [fmap list_fmap concat].
  by rewrite fmap_app, concat_app, IH.
Qed.

Lemma rows_of_all (tbl : array2) : rows_of tbl (seq 0 (shape0 tbl)) = flatten tbl.
Proof.
  unfold rows_of, flatten, shape0. f_equal. apply list_eq. intros i.
  rewrite list_lookup_fmap. destruct (decide (i < length (rows tbl))) as [Hi|Hi].
  - rewrite lookup_seq_lt by done. simpl.
    destruct (lookup_lt_is_Some_2 (rows tbl) i Hi) as [row ->]. done.
  - rewrite lookup_seq_ge, lookup_ge_None_2 by lia. done.
Qed.

Lemma rows_of_Permutation (tbl : array2) (l k : list nat) :
  l ≡ₚ k → rows_of tbl l ≡ₚ rows_of tbl k.
Proof. intros Hlk. unfold rows_of. by rewrite Hlk. Qed.

Lemma pad_padding_size (nr : nat) (l : list nat) :
  Sampler.pad nr l = l ++ take (padding_size (length l) nr) l.
Proof.
  unfold Sampler.pad, padding_size.
  destruct (length l mod nr =? 0); simpl; [|done]. by rewrite app_nil_r.
Qed.

(** X7.  Over all ranks together, an epoch whose seed [seed + epoch] the
    generator accepts (a 64-bit value; any epoch when shuffling is off)
    yields every row of the table once and, a second time, the first rows
    of the epoch's row order, as many as the padding appends; with a row
    count that is a multiple of the replica count nothing is yielded
    twice. *)
Theorem epoch_covers_table (n b h nr rk0 : nat) (sh : bool) (sd e : Z)
    (s0 : Sampler.t) :
  Sampler.init n b h nr rk0 sh sd = Ok s0 →
  (sh = true → (- 2 ^ 63 ≤ sd + e < 2 ^ 64)%Z) →
  let tbl := Sampler.indices_batched s0 in
  prefix_fits (shape0 tbl) nr →
  ∃ outs, length outs = nr ∧
    (∀ rk s, rk < nr → Sampler.init n b h nr rk sh sd = Ok s →
       Sampler.iter randperm (Sampler.set_epoch s e) = Ok (default [] (outs !! rk))) ∧
    concat outs ≡ₚ
      flatten tbl ++
      rows_of tbl (take (padding_size (shape0 tbl) nr)
                        (Sampler.row_order randperm (Sampler.set_epoch s0 e))).
Proof.
  intros Hs0 Hseed tbl Hfit.
  pose proof (init_inv _ _ _ _ _ _ _ _ Hs0) as (Hnr & Hh & Hb & Hmod).
  assert (Hinit : ∀ rk, Sampler.init n b h nr rk sh sd
    = Ok (Sampler.Mk b h nr rk sh sd 0 (table_of n b h)
            (ceil_div (shape0 (table_of n b h)) nr * b)
            (ceil_div (shape0 (table_of n b h)) nr * b * nr)))
    by (intros; by apply init_ok).
  rewrite Hinit in Hs0. injection Hs0 as <-. simpl in tbl. subst tbl.
  set (tbl := table_of n b h) in *.
  set (order := Sampler.row_order randperm (Sampler.set_epoch
    (Sampler.Mk b h nr rk0 sh sd 0 tbl (ceil_div (shape0 tbl) nr * b)
       (ceil_div (shape0 tbl) nr * b * nr)) e)).
  set (padded := Sampler.pad nr order).
  assert (Hol : length order = shape0 tbl) by apply (row_order_length _ randperm_perm).
  assert (Hpl : length padded = ceil_div (shape0 tbl) nr * nr)
    by (unfold padded; rewrite pad_length; rewrite ?Hol; done).
  set (c := ceil_div (shape0 tbl) nr) in *.
  set (stripe := λ rk, (λ k, nth (rk + k * nr) padded 0) <$> seq 0 c).
  exists ((λ rk, rows_of tbl (stripe rk)) <$> seq 0 nr).
  split; [by rewrite length_fmap, length_seq|]. split.
  - intros rk s Hrk Hs. rewrite Hinit in Hs. injection Hs as <-.
    rewrite list_lookup_fmap, lookup_seq_lt by done. simpl.
    pose proof (iter_spec randperm randperm_perm
      (Sampler.set_epoch (Sampler.Mk b h nr rk sh sd 0 tbl (c * b) (c * b * nr)) e))
      as Hspec.
    simpl in Hspec. destruct Hspec as [Hok _]; [|done|done|].
    { repeat split; simpl; try done. apply table_of_rows_width. }
    destruct (Hok Hfit) as [-> _]. f_equal.
    change (Sampler.pad nr _) with padded. rewrite Hpl, Nat.div_mul by lia.
    unfold rows_of, stripe. by rewrite <- list_fmap_compose.
  - unfold rows_of at 1.
    rewrite (concat_fmap_concat (λ i, default [] (rows tbl !! i)) stripe).
    change (concat (_ <$> concat (stripe <$> seq 0 nr)))
      with (rows_of tbl (concat (stripe <$> seq 0 nr))).
    rewrite (rows_of_Permutation tbl _ padded) by (by apply stripes_Permutation).
    unfold padded. rewrite pad_padding_size, Hol.
    unfold rows_of at 1. rewrite fmap_app, concat_app. f_equiv; [|done].
    rewrite <- rows_of_all. apply rows_of_Permutation.
    apply (row_order_perm _ randperm_perm).
Qed.

End SamplerExtras.

(** * Further properties of the aggregator *)

Lemma py_index_error {A} (l : list A) (i : Z) (e : exn) :
  py_index l i = Err e → e = IndexError.
Proof.
  unfold py_index. destruct (py_pos _ _) as [j|e'] eqn:Hj; simpl.
  - destruct (l !! j); [done|]. by intros [= <-].
  - intros [= <-]. unfold py_pos in Hj.
    destruct (_ && _); by simplify_eq.
Qed.

Lemma gather_spec {A} (a : list A) (idx : list Z) (out : list A) :
  gather a idx = Ok out →
  length out = length idx ∧
  ∀ i j, idx !! i = Some j → ∃ v, py_index a j = Ok v ∧ out !! i = Some v.
Proof. apply rmapM_inv. Qed.

Section AggregatorExtras.

Context {Inputs Results Data R : Type}.
Variable model : model_t Inputs Results Data.
Variable get_data : Z → Data.

(** X8.  When the sampler has no possibility map for its cloud id,
    [update_tests] raises [IndexError] and appends no buffer, but the
    tracked cloud id is already the new one. *)
Theorem update_tests_missing_possibility (smp : sampler_t) (inp : Inputs)
    (res : Results) (s : agg) (e : exn) :
  py_index (possibilities smp) (cloud_id smp) = Err e →
  ∃ s1, update_tests model get_data (R:=R) smp inp res s = Raise IndexError s1 ∧
        curr_cloud_id s1 = cloud_id smp ∧
        test_probs s1 = test_probs s ∧ test_labels s1 = test_labels s ∧
        ori_test_probs s1 = ori_test_probs s ∧
        ori_test_labels s1 = ori_test_labels s ∧
        complete_infer s1 = complete_infer s.
Proof.
  intros He. pose proof (py_index_error _ _ _ He) as ->.
  unfold update_tests, start_cloud, getattr.
  cbv [mbind M_bind mret M_ret lift raise get modify]. rewrite He.
  destruct (decide (curr_cloud_id s = cloud_id smp)) as [Heq|Hne].
  - rewrite bool_decide_eq_false_2 by (intros ?; done).
    eexists. split; [done|]. done.
  - rewrite bool_decide_eq_true_2 by done. cbn.
    eexists. split; [done|]. done.
Qed.

(** X9.  With an explicit projection, completing a cloud appends one
    output entry per projection index: entry [i] of each output buffer is
    the accumulated entry at index [proj_inds[i]]. *)
Theorem reprojection_follows_proj_inds (smp : sampler_t) (inp : Inputs)
    (res : Results) (s s' : agg) (p : list float) (proj_inds : list Z) :
  update_tests model get_data (R:=R) smp inp res s = Normal tt s' →
  split smp = "test" →
  py_index (possibilities smp) (cloud_id smp) = Ok p → covered p = true →
  preprocess_proj_inds model (get_data (cloud_id smp)) (split smp) = Some proj_inds →
  ∃ probs labels ori_probs ori_labels,
    py_index (test_probs s') (cloud_id smp) = Ok probs ∧
    py_index (test_labels s') (cloud_id smp) = Ok labels ∧
    ori_test_probs s' = ori_test_probs s ++ [ori_probs] ∧
    ori_test_labels s' = ori_test_labels s ++ [ori_labels] ∧
    length ori_probs = length proj_inds ∧ length ori_labels = length proj_inds ∧
    ∀ i j, proj_inds !! i = Some j →
      ∃ v l, py_index probs j = Ok v ∧ ori_probs !! i = Some v ∧
             py_index labels j = Ok l ∧ ori_labels !! i = Some l.
Proof.
  intros Hrun Hsplit Hp Hcov Hproj. unfold covered in Hcov.
  run_update_tests Hrun.
  all: try match goal with
       | H : bool_decide (curr_cloud_id _ ≠ _) = false |- _ =>
           apply bool_decide_eq_false, dec_stable in H; rewrite H in *
       end.
  all: try match goal with
       | H : _ && _ = false |- _ =>
           rewrite in_test_split, bool_decide_eq_true_2, Hcov in H by done; done
       end.
  all: try congruence.
  all: repeat match goal with
       | H1 : ?x = Some _, H2 : ?x = Some _ |- _ => rewrite H1 in H2; simplify_eq
       end.
  all: repeat match goal with
       | H : gather _ _ = Ok _ |- _ => apply gather_spec in H as [? ?]
       end.
  all: do 4 eexists; do 2 (split; [eassumption|]); do 2 (split; [reflexivity|]).
  all: do 2 (split; [assumption|]).
  all: intros i j Hij.
  all: repeat match goal with
       | H : ∀ i j, _ !! i = Some j → _ |- _ =>
           destruct (H i j Hij) as (? & ? & ?); clear H
       end.
  all: eauto 10.
Qed.

Lemma test_step_inv (smp : sampler_t) (inp : Inputs) (s : agg) :
  ori_test_probs s = [] → ori_test_labels s = [] →
  match test_step model get_data (smp, inp) s with
  | Normal _ s' =>
      ori_test_probs s' = [] ∧ ori_test_labels s' = [] ∧
      curr_cloud_id s' = cloud_id smp ∧
      length (test_probs s')
      = (if bool_decide (curr_cloud_id s ≠ cloud_id smp) then 1 else 0)
        + length (test_probs s) ∧
      length (test_labels s')
      = (if bool_decide (curr_cloud_id s ≠ cloud_id smp) then 1 else 0)
        + length (test_labels s)
  | Raise _ _ => True
  | _ => False
  end.
Proof.
  intros Hp Hl. destruct s as [cur tp tl op ol ci pb pu]. cbn in Hp, Hl. subst.
  destruct (test_step _ _ _ _) eqn:Hrun; [| | |done].
  all: unfold test_step in Hrun.
  all: run_update_tests Hrun.
  all: repeat match goal with
       | H : py_setitem _ _ _ = Ok _ |- _ => apply py_setitem_length in H
       end.
  all: rewrite ?length_app in *; simpl in *.
  all: repeat match goal with
       | H : py_pop [_] = Ok _ |- _ => cbv in H; simplify_eq
       end.
  all: repeat split; try done; try lia.
  all: match goal with H : bool_decide _ = false |- _ =>
         by apply bool_decide_eq_false, dec_stable in H end.
Qed.

Lemma test_loop_inv (loader : list (sampler_t * Inputs)) (s s' : agg) :
  ori_test_probs s = [] → ori_test_labels s = [] →
  for_each loader (test_step model get_data) s = Normal tt s' →
  ori_test_probs s' = [] ∧ ori_test_labels s' = [] ∧
  length (test_probs s')
  = switches (curr_cloud_id s) ((λ b, cloud_id b.1) <$> loader)
    + length (test_probs s) ∧
  length (test_labels s')
  = switches (curr_cloud_id s) ((λ b, cloud_id b.1) <$> loader)
    + length (test_labels s).
Proof.
  revert s. induction loader as [|[smp inp] loader IH]; intros s Hp Hl.
  - cbn. by intros [= <-].
  - cbn [for_each]. rewrite fmap_cons. cbn [switches fst].
    pose proof (test_step_inv smp inp s Hp Hl) as Hstep.
    destruct (test_step model get_data (smp, inp) s) as [[] s1|s1|r s1|e s1];
      try done.
    destruct Hstep as (Hp1 & Hl1 & Hc1 & Hn1 & Hn2). intros Hrun.
    destruct (IH s1 Hp1 Hl1 Hrun) as (? & ? & Hn3 & Hn4).
    rewrite Hc1 in Hn3, Hn4. repeat split; try done; lia.
Qed.

(** X10.  A run of the testing loop that ends normally has consumed every
    finalized buffer it produced, and has kept one accumulated buffer per
    change of cloud id: they are never released. *)
Theorem run_test_1_buffers (loader : list (sampler_t * Inputs)) (s s' : agg) :
  run_test_1 model get_data loader s = Normal tt s' →
  ori_test_probs s' = [] ∧ ori_test_labels s' = [] ∧
  length (test_probs s') = switches (-1) ((λ b, cloud_id b.1) <$> loader) ∧
  length (test_labels s') = switches (-1) ((λ b, cloud_id b.1) <$> loader).
Proof.
  intros Hrun.
  destruct (test_loop_inv loader (reset s) s') as (? & ? & Hn1 & Hn2);
    [done..|]. simpl in Hn1, Hn2. repeat split; try done; lia.
Qed.

End AggregatorExtras.

(** * Further properties of the training loop *)

Lemma init_indivisible (n b h nr rk : nat) (sh : bool) (sd : Z) :
  0 < nr → 0 < h → n mod h ≠ 0 →
  Sampler.init n b h nr rk sh sd = Err AssertionError.
Proof.
  intros Hnr Hh Hmod. unfold Sampler.init. rewrite length_seq.
  destruct (Nat.eqb_spec nr 0); [lia|].
  destruct (Nat.eqb_spec h 0); [lia|].
  destruct (Nat.eqb_spec (n mod h) 0); done.
Qed.

Section TrainingExtras.

Context {Inputs Results Loss Labels Scores Metric Weights : Type}.
Variable cfg : cfg_t.
Variable tr : trainer_t Inputs Results Loss Labels Scores Metric Weights.

(** X11.  A batch with a non-empty score dimension and a head index [hd]
    within range takes the optimizer step, updates the training metric of
    head [hd] and appends its loss to the loss list of head [hd]; the
    metrics and loss lists of the other heads and all validation records
    are left as they were.  The step then ends normally, unless the 3D
    summary is recorded for this batch (['train'] is recorded and
    [progress_bar.n] is 0) and [get_3d_summary] raises: its exception
    leaves the step after the records have been made. *)
Theorem train_batch_records_head (epoch : Z) (n : nat) (inputs : Inputs)
    (s : train Metric Weights) (hd d : nat) (m : Metric) (ls : list float) :
  let w := zero_grad tr (weights s) in
  let out := get_loss tr (model_call tr w inputs) inputs in
  let summary :=
    if bool_decide ("train" ∈ record_summary cfg) && (n =? 0)
    then get_3d_summary tr (model_call tr w inputs) inputs epoch
    else Ok tt in
  last (size tr out.2) = Some d → d ≠ 0 →
  dataset_idx tr inputs = Z.of_nat hd →
  metric_train s !! hd = Some m → losses s !! hd = Some ls →
  ∃ s', train_batch cfg tr epoch n inputs s
        = match summary with
          | Ok _ => Normal tt s'
          | Err e => Raise e s'
          end ∧
    weights s' = stepped cfg tr out.1.1 w ∧
    metric_train s' = <[hd := metric_update tr m out.2 out.1.2]> (metric_train s) ∧
    losses s' = <[hd := ls ++ [loss_item tr out.1.1]]> (losses s) ∧
    metric_val s' = metric_val s ∧ valid_losses s' = valid_losses s.
Proof.
  intros w out summary Hlast Hd Hidx Hm Hl. unfold train_batch.
  cbv [mbind M_bind mret M_ret lift raise get modify continue_].
  cbn -[py_index py_setitem clip_enabled]. fold w. subst out summary.
  rewrite Hidx.
  destruct (get_loss tr (model_call tr w inputs) inputs) as [[loss gt] ps].
  cbn -[py_index py_setitem clip_enabled] in *. rewrite py_index_last, Hlast.
  cbn -[py_index py_setitem clip_enabled].
  destruct (Nat.eqb_spec d 0) as [|_]; [done|]. unfold stepped.
  destruct (clip_enabled cfg); cbn -[py_index py_setitem].
  all: rewrite !py_index_nat, Hm; cbn -[py_index py_setitem].
  all: rewrite py_setitem_nat; case_decide as Hlt;
    [|by apply lookup_lt_Some in Hm].
  all: cbn -[py_setitem py_index]; rewrite py_index_nat, Hl.
  all: cbn -[py_index py_setitem].
  all: rewrite py_setitem_nat; case_decide as Hlt';
    [|by apply lookup_lt_Some in Hl].
  all: cbn; destruct (bool_decide _ && _); cbn;
    [destruct (get_3d_summary tr _ _ _) as [[]|e]; cbn|].
  all: destruct (distributed cfg); cbn; eexists; split; done.
Qed.

(** X12.  A head index beyond the metric list is detected only after
    the optimizer step: the batch raises [IndexError] with the weights
    already updated and no metric or loss recorded for it. *)
Theorem train_batch_bad_head_index (epoch : Z) (n : nat) (inputs : Inputs)
    (s : train Metric Weights) (hd d : nat) :
  let w := zero_grad tr (weights s) in
  let out := get_loss tr (model_call tr w inputs) inputs in
  last (size tr out.2) = Some d → d ≠ 0 →
  dataset_idx tr inputs = Z.of_nat hd → length (metric_train s) ≤ hd →
  ∃ s', train_batch cfg tr epoch n inputs s = Raise IndexError s' ∧
    weights s' = stepped cfg tr out.1.1 w ∧
    last (events s') = Some EvOptimizerStep ∧
    metric_train s' = metric_train s ∧ losses s' = losses s.
Proof.
  intros w out Hlast Hd Hidx Hlen. unfold train_batch.
  cbv [mbind M_bind mret M_ret lift raise get modify continue_].
  cbn -[py_index py_setitem clip_enabled]. fold w. subst out. rewrite Hidx.
  destruct (get_loss tr (model_call tr w inputs) inputs) as [[loss gt] ps].
  cbn -[py_index py_setitem clip_enabled] in *. rewrite py_index_last, Hlast.
  cbn -[py_index py_setitem clip_enabled].
  destruct (Nat.eqb_spec d 0) as [|_]; [done|]. unfold stepped.
  destruct (clip_enabled cfg); cbn -[py_index py_setitem].
  all: rewrite !py_index_nat, lookup_ge_None_2 by done; cbn.
  all: eexists; split; [done|]; cbn; by rewrite last_snoc.
Qed.

Lemma valid_batch_preserves (epoch : Z) (step : nat) (inputs : Inputs)
    (s : train Metric Weights) :
  let s' := final_state (valid_batch cfg tr epoch step inputs s) in
  weights s' = weights s ∧ metric_train s' = metric_train s ∧
  losses s' = losses s ∧
  ∃ evs, events s' = events s ++ evs ∧ Forall validation_event evs.
Proof.
  assert (Hev : Forall validation_event [EvForward; EvGetLoss])
    by (repeat constructor; unfold validation_event; auto).
  assert (Hev' : Forall validation_event [EvForward; EvGetLoss; EvSummary "valid"])
    by (repeat constructor; unfold validation_event; auto).
  destruct (valid_batch cfg tr epoch step inputs s) eqn:Hrun.
  all: unfold valid_batch in Hrun.
  all: cbv [mbind M_bind mret M_ret lift raise get modify continue_] in Hrun.
  all: repeat (case_match; simplify_eq/=).
  all: repeat split; try done.
  all: rewrite <- ?app_assoc; cbn; eauto.
Qed.

(** X13.  The validation loop, whatever its batches and however it
    ends, leaves the weights, the training metrics and the training loss
    lists as they were, and calls nothing but the forward pass, the loss
    and the summary. *)
Theorem validation_pass_preserves (epoch : Z) (loader : list (nat * Inputs))
    (s : train Metric Weights) :
  let s' := final_state
    (for_each loader (λ '(step, inputs), valid_batch cfg tr epoch step inputs) s) in
  weights s' = weights s ∧ metric_train s' = metric_train s ∧
  losses s' = losses s ∧
  ∃ evs, events s' = events s ++ evs ∧ Forall validation_event evs.
Proof.
  revert s. induction loader as [|[step inputs] loader IH]; intros s.
  - cbn. repeat split; try done. exists []. by rewrite app_nil_r.
  - cbn [for_each].
    pose proof (valid_batch_preserves epoch step inputs s) as Hstep.
    destruct (valid_batch cfg tr epoch step inputs s) as [[] s1|s1|r s1|e s1];
      cbn in Hstep; [| |done..].
    all: destruct Hstep as (Hw & Hm & Hl & evs & He & Hevs).
    all: destruct (IH s1) as (Hw' & Hm' & Hl' & evs' & He' & Hevs').
    all: cbn zeta; rewrite Hw', Hm', Hl', He', He, <- app_assoc.
    all: repeat split; try done; exists (evs ++ evs'); split; [done|].
    all: by apply Forall_app.
Qed.

Variable train_loader valid_loader : Z → list Inputs.
Variable progress_n : nat → nat.

(** X14.  In distributed mode a training or validation split whose
    length is no multiple of the head count makes [run_train] fail with
    the sampler's assertion during set-up: no data loader is built and no
    epoch starts. *)
Theorem run_train_rejects_indivisible (len_train len_valid : nat) (start_ep : Z)
    (s : train Metric Weights) :
  distributed cfg = true → 0 < world_size cfg → 0 < num_heads cfg →
  0 < batch_size cfg →
  len_train mod num_heads cfg ≠ 0 ∨ len_valid mod num_heads cfg ≠ 0 →
  ∃ s1,
    run_train cfg tr train_loader valid_loader progress_n len_train len_valid
      start_ep s = Raise AssertionError s1 ∧
    events s1
    = events s ++ [EvTorchDataloader "train"; EvTorchDataloader "val"]
      ++ (if decide (len_train mod num_heads cfg = 0)
          then [EvCustomDistributedSampler "train"] else []).
Proof.
  intros Hd Hws Hh Hb Hbad.
  unfold run_train, run_train_from_check, distributed_check.
  cbv [mbind M_bind mret M_ret lift raise get modify]. rewrite Hd.
  cbn -[Sampler.init]. case_decide as Hmod.
  - rewrite (init_ok len_train) by done. cbn -[Sampler.init].
    rewrite init_indivisible by (done || tauto). cbn.
    eexists. split; [done|]. cbn. by rewrite <- ?app_assoc.
  - rewrite init_indivisible by done. cbn.
    eexists. split; [done|]. cbn. by rewrite <- ?app_assoc.
Qed.

End TrainingExtras.

(** * Checkpoints *)

Section CheckpointProofs.

Import Checkpoint.

Context {MS OS SS : Type}.
Variable join : string → string → string.
Variable latest_torch_ckpt : gmap string (ckpt MS OS SS) → string → option string.
Variable logs_dir : string.
Variable rank : nat.
Variable distributed : bool.

(** X15.  Loading the file a successful [save_ckpt(epoch)] wrote, into a
    pipeline that has an optimizer and a scheduler, resumes at
    [epoch + 1] with the model, optimizer and scheduler states that were
    saved, whatever [is_resume] says. *)
Theorem save_then_load (epoch : Z) (is_resume : bool) (s s1 s2 : state MS OS SS)
    (o2 : OS) (c2 : SS) :
  save_ckpt join logs_dir epoch s = Done tt s1 →
  files s2 !! ckpt_file join logs_dir epoch
  = files s1 !! ckpt_file join logs_dir epoch →
  optimizer s2 = Some (Some o2) → scheduler s2 = Some (Some c2) →
  ∃ s3, load_ckpt join latest_torch_ckpt logs_dir rank distributed
          (Some (ckpt_file join logs_dir epoch)) is_resume s2
        = Done (epoch + 1)%Z s3 ∧
        model_state s3 = model_state s ∧ optimizer s3 = optimizer s ∧
        scheduler s3 = scheduler s ∧ files s3 = files s2.
Proof.
  intros Hsave Hfile Ho Hc. unfold Checkpoint.save_ckpt in Hsave.
  destruct s as [fl ms [[osd|]|] [[ssd|]|] cl]; simplify_eq/=.
  rewrite lookup_insert_eq in Hfile.
  unfold Checkpoint.load_ckpt.
  destruct (rank =? 0), distributed; simpl; rewrite Hfile; simpl.
  all: rewrite Ho, Hc; simpl; eexists; split; done.
Qed.

(** X16.  Without an explicit path, [load_ckpt] starts from scratch, at
    epoch 0 and with nothing loaded, when [is_resume] is off or the
    checkpoint directory holds no latest checkpoint. *)
Theorem load_ckpt_from_scratch (is_resume : bool) (s : state MS OS SS) :
  is_resume = false ∨
  latest_torch_ckpt (files s) (join logs_dir "checkpoint") = None →
  ∃ s1, load_ckpt join latest_torch_ckpt logs_dir rank distributed None is_resume s
        = Done 0%Z s1 ∧
        model_state s1 = model_state s ∧ optimizer s1 = optimizer s ∧
        scheduler s1 = scheduler s ∧ files s1 = files s.
Proof.
  intros Hfresh. unfold Checkpoint.load_ckpt.
  destruct (rank =? 0), distributed; cbn.
  all: destruct Hfresh as [-> | ->];
    [destruct (latest_torch_ckpt _ _)|]; eexists; split; done.
Qed.

(** X17.  A checkpoint with optimizer state loaded into a pipeline whose
    optimizer is [None] fails with [AttributeError] only after the model
    state has been replaced by the checkpoint's. *)
Theorem load_ckpt_partial (path : string) (is_resume : bool) (s : state MS OS SS)
    (ck : ckpt MS OS SS) (msd : MS) (osd : OS) :
  files s !! path = Some ck →
  model_state_dict ck = Some msd → optimizer_state_dict ck = Some osd →
  optimizer s = Some None →
  ∃ s1, load_ckpt join latest_torch_ckpt logs_dir rank distributed (Some path)
          is_resume s = Failed (Py AttributeError) s1 ∧
        model_state s1 = msd ∧ optimizer s1 = Some None ∧
        scheduler s1 = scheduler s.
Proof.
  intros Hfile Hm Ho Hopt. unfold Checkpoint.load_ckpt.
  destruct (rank =? 0), distributed; simpl; rewrite Hfile, Hm; simpl.
  all: rewrite Ho, Hopt; eexists; split; done.
Qed.

(** X18.  [load_ckpt] with a path that holds no checkpoint raises
    [FileNotFoundError], and with a checkpoint that lacks the model state
    [KeyError]; in both cases nothing is loaded. *)
Theorem load_ckpt_missing (path : string) (is_resume : bool) (s : state MS OS SS) :
  (∀ ck, files s !! path = Some ck → model_state_dict ck = None) →
  ∃ e s1, load_ckpt join latest_torch_ckpt logs_dir rank distributed (Some path)
            is_resume s = Failed e s1 ∧
    e = (if decide (is_Some (files s !! path)) then KeyError
         else FileNotFoundError) ∧
    model_state s1 = model_state s ∧ optimizer s1 = optimizer s ∧
    scheduler s1 = scheduler s.
Proof.
  intros Hck. unfold Checkpoint.load_ckpt.
  destruct (rank =? 0), distributed; simpl.
  all: destruct (files s !! path) as [ck|] eqn:Hfile; simpl;
    [rewrite (Hck ck eq_refl)|]; do 2 eexists; split; done.
Qed.

(** X19.  [save_ckpt] needs both an optimizer and a scheduler: when
    either attribute is unset or [None] it raises [AttributeError] and
    writes no file. *)
Theorem save_ckpt_needs_scheduler (epoch : Z) (s : state MS OS SS) :
  state_dict_of (optimizer s) = None ∨ state_dict_of (scheduler s) = None →
  ∃ s1, save_ckpt join logs_dir epoch s = Failed (Py AttributeError) s1 ∧
        files s1 = files s.
Proof.
  intros Hnone. unfold Checkpoint.save_ckpt. simpl.
  destruct (state_dict_of (optimizer s)) as [osd|]; [|by eexists].
  destruct Hnone as [?| ->]; [done|]. by eexists.
Qed.

End CheckpointProofs.

(** * The size of a 3D summary *)

(** X20.  For a cloud of [n > 0] points, [n] below [2^53], and a limit
    [max_pts > 0] the summary keeps at least one and at most [max_pts]
    points, and all of them when the cloud is within the limit. *)
Theorem summary_points_bounded (max_pts n : nat) :
  0 < max_pts → 0 < n → (Z.of_nat n < 2 ^ 53)%Z →
  ∃ step k, pcd_step max_pts n = Ok step ∧ summary_points max_pts n = Ok k ∧
            1 ≤ step ∧ 1 ≤ k ≤ max_pts ∧ k ≤ n ∧ (n ≤ max_pts → k = n).
Proof.
  intros Hm Hn _. unfold summary_points, pcd_step.
  set (m := max_pts `min` n). assert (Hm1 : 1 ≤ m ≤ n ∧ m ≤ max_pts) by lia.
  destruct (Nat.eqb_spec m 0) as [|_]; [lia|]. simpl.
  do 2 eexists. split; [done|]. split; [done|].
  unfold slice_len. destruct (Nat.ltb_spec 0 n) as [_|]; [|lia].
  assert (Hst : 1 ≤ ceil_div n m ∧ n ≤ ceil_div n m * m
                ∧ (m = n → ceil_div n m = 1)).
  { unfold ceil_div. pose proof (Nat.div_mod_eq n m).
    pose proof (Nat.mod_upper_bound n m ltac:(lia)).
    destruct (Nat.eqb_spec (n mod m) 0) as [Hz|Hz].
    - split; [|split]; [nia|nia|].
      intros ->. rewrite Nat.div_same by lia. lia.
    - split; [|split]; [nia|nia|].
      intros ->. rewrite Nat.Div0.mod_same in Hz. lia. }
  set (st := ceil_div n m) in *. destruct Hst as (Hst1 & Hst2 & Hst3).
  replace (n - 0 + st - 1) with (n + st - 1) by lia.
  assert (Hk : (n + st - 1) / st ≤ m).
  { apply Nat.lt_succ_r, Nat.Div0.div_lt_upper_bound. nia. }
  assert (Hk1 : 1 ≤ (n + st - 1) / st).
  { apply Nat.div_le_lower_bound; lia. }
  assert (Hkn : (n + st - 1) / st ≤ n).
  { apply Nat.lt_succ_r, Nat.Div0.div_lt_upper_bound. nia. }
  repeat split; try lia.
  intros Hle. rewrite Hst3 by lia. rewrite Nat.div_1_r. lia.
Qed.

Lemma summary_points_bounded_witness :
  ∃ step k, pcd_step 100 1001 = Ok step ∧ summary_points 100 1001 = Ok k ∧
            step = 11 ∧ k = 91.
Proof.
  destruct (summary_points_bounded 100 1001) as (step & k & H1 & H2 & _); [lia..|].
  exists step, k. split; [exact H1|]. split; [exact H2|].
  vm_compute in H1, H2. by simplify_eq.
Defined.

(** * Logs *)

Section LogsProofs.

Import Logs.

Context {Metric Payload Names : Type}.
Variable metric_len : Metric → nat.
Variable acc iou : Metric → list float.
Variable mean : list float → float.

Lemma elem_of_concat {A} (x : A) (ls : list (list A)) :
  x ∈ concat ls → ∃ l, x ∈ l ∧ l ∈ ls.
Proof.
  induction ls as [|l ls IH]; cbn; [by intros ?%elem_of_nil|].
  intros [Hx|Hx]%elem_of_app.
  - exists l. split; [done|]. apply elem_of_cons. by left.
  - destruct (IH Hx) as (l' & ? & ?). exists l'. split; [done|].
    apply elem_of_cons. by right.
Qed.

Lemma write_summaries_length (epoch : Z)
    (sm : list (string * list (string * summary_dict Payload Names))) :
  length (write_summaries epoch sm).2 = summary_entries sm.
Proof.
  unfold write_summaries, summary_entries. simpl.
  induction sm as [|[stage entries] sm IH]; [done|].
  cbn. rewrite length_app, IH, !length_fmap. done.
Qed.

Lemma write_summaries_stripped (epoch : Z)
    (sm : list (string * list (string * summary_dict Payload Names)))
    stage entries key d :
  (stage, entries) ∈ (write_summaries epoch sm).1 →
  (key, d) ∈ entries → label_to_names d = None.
Proof.
  unfold write_summaries. simpl. rewrite <- list_fmap_compose.
  intros ([stage' entries'] & Heq & _)%list_elem_of_fmap Hin.
  cbn in Heq. simplify_eq. rewrite <- list_fmap_compose in Hin.
  apply list_elem_of_fmap in Hin as ([key' d'] & Heq & _). by simplify_eq/=.
Qed.

Lemma write_summaries_again (epoch : Z)
    (sm : list (string * list (string * summary_dict Payload Names))) :
  write_summaries epoch (write_summaries epoch sm).1 =
  ((write_summaries epoch sm).1, without_names <$> (write_summaries epoch sm).2).
Proof.
  unfold write_summaries. cbn [fst snd]. f_equal.
  - rewrite <- !list_fmap_compose. apply list_fmap_ext.
    intros _ [stage entries] _. cbn. f_equal.
    rewrite <- !list_fmap_compose. apply list_fmap_ext. by intros _ [key d] _.
  - induction sm as [|[stage entries] sm IH]; [done|].
    cbn. rewrite fmap_app. f_equal; [|done].
    rewrite <- !list_fmap_compose. apply list_fmap_ext. by intros _ [key d] _.
Qed.

(** What a call of [save_logs] that runs to its end has done. *)
Lemma save_logs_normal (epoch idx : Z) (s s1 : state Metric Payload Names) :
  save_logs metric_len acc iou mean epoch idx s = Normal tt s1 →
  ∃ scalars, length scalars = 6 ∧
    (∀ c, c ∈ scalars → ∃ tag v, c = AddScalar tag v epoch) ∧
    writer s1 = writer s ++ scalars ++ (write_summaries epoch (summary s)).2 ∧
    summary s1 = (write_summaries epoch (summary s)).1 ∧
    metric_train s1 = metric_train s ∧ metric_val s1 = metric_val s ∧
    losses s1 = losses s ∧ valid_losses s1 = valid_losses s ∧
    (∃ mt mv, py_index (metric_train s) idx = Ok mt ∧
              py_index (metric_val s) idx = Ok mv ∧
              metric_len mt ≠ 0 ∧ metric_len mv ≠ 0).
Proof.
  intros Hrun. unfold Logs.save_logs in Hrun.
  cbv [mbind M_bind mret M_ret lift raise get modify return_] in Hrun.
  repeat (case_match; simplify_eq/=).
  repeat match goal with
         | H1 : ?x = Ok _, H2 : ?x = Ok _ |- _ => rewrite H1 in H2; simplify_eq
         end.
  eexists [_; _; _; _; _; _]. split; [done|]. split.
  { intros c Hc. repeat (apply elem_of_cons in Hc as [->|Hc]; [by eauto|]).
    by apply elem_of_nil in Hc. }
  rewrite <- !app_assoc. cbn [app]. repeat (split; [done|]).
  do 2 eexists. repeat (split; [done|]).
  split; by apply Nat.eqb_neq.
Qed.

(** X21.  [save_logs] returns at once, with nothing written and the
    summaries untouched, when the head's training metric is empty or its
    validation metric is. *)
Theorem save_logs_empty_metric (epoch idx : Z) (s : state Metric Payload Names)
    (mt : Metric) :
  py_index (metric_train s) idx = Ok mt →
  metric_len mt = 0 ∨
    (∃ mv, py_index (metric_val s) idx = Ok mv ∧ metric_len mv = 0) →
  save_logs metric_len acc iou mean epoch idx s = Return tt s.
Proof.
  intros Hmt Hempty. unfold Logs.save_logs.
  cbv [mbind M_bind mret M_ret lift raise get modify return_].
  rewrite Hmt. destruct (Nat.eqb_spec (metric_len mt) 0) as [|Hne]; [done|].
  destruct Hempty as [|(mv & -> & ->)]; done.
Qed.

(** X22.  A call of [save_logs] that runs to its end makes six
    [add_scalar] calls and then one [add_3d] call per summary dict, all
    with the epoch given, and leaves no summary dict with a
    ['label_to_names'] entry. *)
Theorem save_logs_strips_labels (epoch idx : Z) (s s1 : state Metric Payload Names) :
  save_logs metric_len acc iou mean epoch idx s = Normal tt s1 →
  length (new_calls s s1) = 6 + summary_entries (summary s) ∧
  (∀ c, c ∈ take 6 (new_calls s s1) → ∃ tag v, c = AddScalar tag v epoch) ∧
  (∀ c, c ∈ drop 6 (new_calls s s1) → ∃ tag d names, c = Add3d tag d epoch names) ∧
  (∀ stage entries key d, (stage, entries) ∈ summary s1 → (key, d) ∈ entries →
     label_to_names d = None).
Proof.
  intros (scalars & Hlen & Hsc & Hw & Hsm & _)%save_logs_normal.
  unfold new_calls. rewrite Hw, drop_app_length.
  rewrite take_app_length', drop_app_length' by done.
  rewrite length_app, write_summaries_length, Hlen.
  split; [done|]. split; [done|]. split.
  - intros c. unfold write_summaries. cbn [snd].
    intros (calls & Hc & Hcalls)%elem_of_concat.
    rewrite <- list_fmap_compose in Hcalls.
    apply list_elem_of_fmap in Hcalls as ([stage entries] & -> & _).
    cbn in Hc. rewrite <- list_fmap_compose in Hc.
    apply list_elem_of_fmap in Hc as ([key d] & -> & _). cbn. eauto.
  - rewrite Hsm. apply write_summaries_stripped.
Qed.

(** X23.  The label names reach the writer once: when [save_logs] has run
    to its end, the next call that does (the next head's, in the loop of
    [run_train]) repeats the same [add_3d] calls, tags included, with
    [label_to_names=None]. *)
Theorem next_head_repeats_without_names (epoch idx idx' : Z)
    (s s1 s2 : state Metric Payload Names) :
  save_logs metric_len acc iou mean epoch idx s = Normal tt s1 →
  save_logs metric_len acc iou mean epoch idx' s1 = Normal tt s2 →
  drop 6 (new_calls s1 s2) = without_names <$> drop 6 (new_calls s s1) ∧
  summary s2 = summary s1.
Proof.
  intros (sc & Hlen & _ & Hw & Hsm & _)%save_logs_normal.
  intros (sc' & Hlen' & _ & Hw' & Hsm' & _)%save_logs_normal.
  unfold new_calls. rewrite Hw', Hw, !drop_app_length.
  rewrite !drop_app_length' by done.
  rewrite Hsm', Hsm, write_summaries_again. done.
Qed.

Lemma named_calls_app (cs ds : list (wcall Payload Names)) :
  named_calls (cs ++ ds) = named_calls cs + named_calls ds.
Proof.
  unfold named_calls. induction cs as [|c cs IH]; [done|].
  csimpl. rewrite IH. lia.
Qed.

Lemma write_summaries_named (epoch : Z)
    (sm : list (string * list (string * summary_dict Payload Names))) :
  named_calls (write_summaries epoch sm).2 = named_entries sm ∧
  named_entries (write_summaries epoch sm).1 = 0.
Proof.
  unfold write_summaries, named_entries. cbn [fst snd].
  induction sm as [|[stage entries] sm [IH1 IH2]]; [done|].
  cbn -[named_calls]. rewrite named_calls_app, IH1, IH2. split.
  - f_equal. unfold named_calls. rewrite <- !list_fmap_compose.
    f_equal. apply list_fmap_ext. intros _ [key d] _. cbn.
    unfold named_entry. cbn. by destruct (label_to_names d).
  - rewrite Nat.add_0_r. rewrite <- !list_fmap_compose.
    clear. by induction entries as [|[key d] entries IH].
Qed.

(** However one call of [save_logs] ends, it only appends to the writer's
    calls, and a label entry is either passed on or still in place. *)
Lemma save_logs_labels (epoch idx : Z) (s : state Metric Payload Names) :
  let s1 := final_state (save_logs metric_len acc iou mean epoch idx s) in
  ∃ calls, writer s1 = writer s ++ calls ∧
    named_calls calls + named_entries (summary s1) = named_entries (summary s).
Proof.
  destruct (write_summaries_named epoch (summary s)) as [Hn1 Hn2].
  unfold Logs.save_logs.
  cbv [mbind M_bind mret M_ret lift raise get modify return_].
  repeat (case_match; simplify_eq/=).
  all: try by (exists []; rewrite app_nil_r).
  all: rewrite <- ?app_assoc; eexists; (split; [done|]).
  all: rewrite ?named_calls_app; cbn; try done.
  by rewrite Hn1, Hn2.
Qed.

Lemma final_state_call_method (m : M (state Metric Payload Names) unit unit)
    (s : state Metric Payload Names) :
  final_state (call_method m s) = final_state (m s).
Proof. unfold call_method. by destruct (m s). Qed.

(** X24.  However the loop over the heads ends, it only appends to the
    writer's calls, and every ['label_to_names'] entry of the summaries
    has by then been passed to [add_3d] exactly once or is still in its
    dict. *)
Theorem save_all_logs_labels_once (epoch : Z) (num_heads : nat)
    (s : state Metric Payload Names) :
  let s' := final_state (save_all_logs metric_len acc iou mean epoch num_heads s) in
  ∃ calls, writer s' = writer s ++ calls ∧
    named_calls calls + named_entries (summary s') = named_entries (summary s).
Proof.
  unfold save_all_logs. generalize (seq 0 num_heads). intros heads.
  revert s. induction heads as [|i heads IH]; intros s.
  - exists []. by rewrite app_nil_r.
  - cbn [for_each].
    pose proof (save_logs_labels epoch (Z.of_nat i) s) as (calls & Hw & Hn).
    rewrite <- (final_state_call_method _ s) in Hw, Hn.
    destruct (call_method _ s) as [[] s1|s1|[] s1|e s1]; cbn in Hw, Hn;
      [| |by exists calls..].
    all: destruct (IH s1) as (calls' & Hw' & Hn'); cbn zeta in *.
    all: exists (calls ++ calls'); rewrite Hw', Hw, named_calls_app, app_assoc.
    all: split; [done|lia].
Qed.

End LogsProofs.

(** * Worked instances *)

Lemma table_entries_distinct_witness :
  ∃ s, Sampler.init 14 3 2 3 1 true 0 = Ok s ∧
       NoDup (flatten (Sampler.indices_batched s)) ∧
       length (flatten (Sampler.indices_batched s)) = 12.
Proof.
  eexists. split; [vm_compute; reflexivity|].
  destruct (table_entries_distinct 14 3 2 3 1 true 0 _ eq_refl) as (Hnd & _ & Hlen).
  split; [exact Hnd|exact Hlen].
Defined.


Lemma yielded_batches_homogeneous_witness :
  ∃ s l, Sampler.init 14 3 2 3 1 true 0 = Ok s ∧
         Sampler.iter demo_randperm (Sampler.set_epoch s 4) = Ok l ∧
         length l mod 3 = 0 ∧
         ∀ x y, x ∈ take 3 l → y ∈ take 3 l → x mod 2 = y mod 2.
Proof.
  eexists _, _. split; [vm_compute; reflexivity|].
  split; [vm_compute; reflexivity|].
  destruct (yielded_batches_homogeneous demo_randperm demo_randperm_perm
              14 3 2 3 1 true 0 4 _ _ eq_refl ltac:(lia) eq_refl) as [Hlen Hhead].
  split; [exact Hlen|exact (Hhead 0)].
Defined.

Lemma epoch_covers_table_witness :
  ∃ s0 outs, Sampler.init 14 3 2 3 0 true 0 = Ok s0 ∧
    length outs = 3 ∧
    concat outs ≡ₚ
      flatten (Sampler.indices_batched s0) ++
      rows_of (Sampler.indices_batched s0)
        (take 2 (Sampler.row_order demo_randperm (Sampler.set_epoch s0 4))).
Proof.
  eexists.
  destruct (epoch_covers_table demo_randperm demo_randperm_perm 14 3 2 3 0 true 0 4
              _ eq_refl) as (outs & Hlen & _ & Hperm).
  - lia.
  - right. vm_compute. lia.
  - exists outs. split; [vm_compute; reflexivity|].
    split; [exact Hlen|exact Hperm].
Defined.

Lemma update_tests_missing_possibility_witness :
  ∃ s1, update_tests demo_model demo_get_data (R:=unit) demo_sampler_missing 0 0
          demo_agg = Raise IndexError s1 ∧
        curr_cloud_id s1 = 1%Z ∧ test_probs s1 = [].
Proof.
  destruct (update_tests_missing_possibility demo_model demo_get_data (R:=unit)
              demo_sampler_missing 0 0 demo_agg IndexError eq_refl)
    as (s1 & Hrun & Hid & Hp & _).
  exists s1. split; [exact Hrun|]. split; [exact Hid|exact Hp].
Defined.

Lemma reprojection_follows_proj_inds_witness :
  ∃ s' ori_labels,
    update_tests demo_model_proj demo_get_data (R:=unit) demo_sampler 0 0 demo_agg
    = Normal tt s' ∧
    ori_test_labels s' = [ori_labels] ∧ length ori_labels = 3.
Proof.
  eexists.
  edestruct (reprojection_follows_proj_inds demo_model_proj demo_get_data (R:=unit)
               demo_sampler 0 0 demo_agg)
    as (probs & labels & ori_probs & ori_labels & _ & _ & _ & Hl & _ & Hlen & _).
  - vm_compute. reflexivity.
  - reflexivity.
  - reflexivity.
  - reflexivity.
  - reflexivity.
  - exists ori_labels. split; [vm_compute; reflexivity|].
    split; [exact Hl|exact Hlen].
Defined.

Lemma run_test_1_buffers_witness :
  ∃ s', run_test_1 demo_model demo_get_data [(demo_sampler, 0); (demo_sampler, 1)]
          demo_agg = Normal tt s' ∧
        ori_test_labels s' = [] ∧ length (test_probs s') = 1.
Proof.
  eexists. split; [vm_compute; reflexivity|].
  match goal with
  | |- context [length (test_probs ?s)] =>
      assert (Hrun : run_test_1 demo_model demo_get_data
                       [(demo_sampler, 0); (demo_sampler, 1)] demo_agg
                     = Normal tt s) by (vm_compute; reflexivity);
      destruct (run_test_1_buffers _ _ _ _ _ Hrun) as (_ & Hl & Hn & _)
  end.
  split; [exact Hl|exact Hn].
Defined.

Lemma train_batch_records_head_witness :
  (∃ s', train_batch (demo_cfg false) demo_trainer 1 0 5 demo_train = Normal tt s' ∧
         weights s' = 2 ∧ metric_train s' = [1] ∧ losses s' = [[0%float]]) ∧
  (∃ s', train_batch demo_cfg_summary demo_trainer 1 0 7 demo_train
         = Raise NotImplementedError s' ∧
         weights s' = 2 ∧ metric_train s' = [1] ∧ losses s' = [[0%float]]).
Proof.
  split.
  - destruct (train_batch_records_head (demo_cfg false) demo_trainer 1 0 5
                demo_train 0 5 0 []) as (s' & Hrun & Hw & Hm & Hl & _);
      [reflexivity | lia | reflexivity | reflexivity | reflexivity |].
    exists s'. split; [exact Hrun|]. split; [exact Hw|]. split; [exact Hm|exact Hl].
  - destruct (train_batch_records_head demo_cfg_summary demo_trainer 1 0 7
                demo_train 0 7 0 []) as (s' & Hrun & Hw & Hm & Hl & _);
      [reflexivity | lia | reflexivity | reflexivity | reflexivity |].
    exists s'. split; [exact Hrun|]. split; [exact Hw|]. split; [exact Hm|exact Hl].
Defined.

Lemma train_batch_bad_head_index_witness :
  ∃ s', train_batch (demo_cfg false) demo_trainer 1 0 5 demo_train_no_metric
        = Raise IndexError s' ∧
        weights s' = 2 ∧ losses s' = [[]].
Proof.
  destruct (train_batch_bad_head_index (demo_cfg false) demo_trainer 1 0 5
              demo_train_no_metric 0 5) as (s' & Hrun & Hw & _ & _ & Hl);
    [reflexivity | lia | reflexivity | simpl; lia |].
  exists s'. split; [exact Hrun|]. split; [exact Hw|exact Hl].
Defined.

Lemma run_train_rejects_indivisible_witness :
  ∃ s1, run_train demo_cfg_heads demo_trainer (λ _, [1; 2]) (λ _, [3]) (λ i, i)
          7 6 0 demo_train = Raise AssertionError s1 ∧
        events s1 = [EvTorchDataloader "train"; EvTorchDataloader "val"].
Proof.
  destruct (run_train_rejects_indivisible demo_cfg_heads demo_trainer
              (λ _, [1; 2]) (λ _, [3]) (λ i, i) 7 6 0 demo_train)
    as (s1 & Hrun & Hev); [reflexivity | simpl; lia.. | left; by vm_compute |].
  exists s1. split; [exact Hrun|exact Hev].
Defined.

Lemma save_then_load_witness :
  ∃ s3,
    Checkpoint.save_ckpt demo_join "logs" 7 demo_pipeline = Checkpoint.Done tt demo_saved ∧
    Checkpoint.load_ckpt demo_join demo_latest "logs" 0 false
      (Some (Checkpoint.ckpt_file demo_join "logs" 7)) false
      (demo_fresh (Checkpoint.files demo_saved) (Some (Some 0)))
    = Checkpoint.Done 8%Z s3 ∧
    Checkpoint.model_state s3 = 1 ∧ Checkpoint.optimizer s3 = Some (Some 2) ∧
    Checkpoint.scheduler s3 = Some (Some 3).
Proof.
  destruct (save_then_load demo_join demo_latest "logs" 0 false 7 false
              demo_pipeline demo_saved
              (demo_fresh (Checkpoint.files demo_saved) (Some (Some 0))) 0 0)
    as (s3 & Hload & Hm & Ho & Hs & _); [reflexivity..|].
  exists s3. split; [reflexivity|]. split; [exact Hload|].
  split; [exact Hm|]. split; [exact Ho|exact Hs].
Defined.

Lemma load_ckpt_from_scratch_witness :
  (∃ s1,
     Checkpoint.load_ckpt demo_join demo_latest "logs" 0 false None false demo_saved
     = Checkpoint.Done 0%Z s1 ∧
     Checkpoint.model_state s1 = 1) ∧
  (∃ s1,
     Checkpoint.load_ckpt demo_join demo_latest "logs" 0 false None true
       demo_pipeline
     = Checkpoint.Done 0%Z s1 ∧
     Checkpoint.model_state s1 = 1).
Proof.
  split.
  - destruct (load_ckpt_from_scratch demo_join demo_latest "logs" 0 false false
                demo_saved) as (s1 & Hload & Hm & _); [by left|].
    exists s1. split; [exact Hload|exact Hm].
  - destruct (load_ckpt_from_scratch demo_join demo_latest "logs" 0 false true
                demo_pipeline) as (s1 & Hload & Hm & _); [right; reflexivity|].
    exists s1. split; [exact Hload|exact Hm].
Defined.

Lemma load_ckpt_partial_witness :
  ∃ s1,
    Checkpoint.load_ckpt demo_join demo_latest "logs" 0 false
      (Some (Checkpoint.ckpt_file demo_join "logs" 7)) true
      (demo_fresh (Checkpoint.files demo_saved) (Some None))
    = Checkpoint.Failed (Checkpoint.Py AttributeError) s1 ∧
    Checkpoint.model_state s1 = 1.
Proof.
  destruct (load_ckpt_partial demo_join demo_latest "logs" 0 false
              (Checkpoint.ckpt_file demo_join "logs" 7) true
              (demo_fresh (Checkpoint.files demo_saved) (Some None))
              demo_ckpt 1 2) as (s1 & Hload & Hm & _);
    [apply lookup_insert_eq | reflexivity..|].
  exists s1. split; [exact Hload|exact Hm].
Defined.

Lemma load_ckpt_missing_witness :
  ∃ s1,
    Checkpoint.load_ckpt demo_join demo_latest "logs" 0 false (Some "model.pth") true
      demo_pipeline
    = Checkpoint.Failed Checkpoint.FileNotFoundError s1 ∧
    Checkpoint.model_state s1 = 1.
Proof.
  destruct (load_ckpt_missing demo_join demo_latest "logs" 0 false "model.pth" true
              demo_pipeline) as (e & s1 & Hload & He & Hm & _).
  - intros ck Hck. unfold demo_pipeline in Hck. cbn in Hck.
    by rewrite lookup_empty in Hck.
  - exists s1. rewrite decide_False in He by (by intros [??]). subst e.
    split; [exact Hload|exact Hm].
Defined.

Lemma save_ckpt_needs_scheduler_witness :
  ∃ s1,
    Checkpoint.save_ckpt demo_join "logs" 7
      (Checkpoint.State (SS:=nat) ∅ 1 (Some (Some 2)) (Some None) [])
    = Checkpoint.Failed (Checkpoint.Py AttributeError) s1 ∧
    Checkpoint.files s1 = ∅.
Proof.
  apply (save_ckpt_needs_scheduler demo_join "logs" 7
           (Checkpoint.State (SS:=nat) ∅ 1 (Some (Some 2)) (Some None) [])).
  by right.
Defined.

Lemma save_logs_empty_metric_witness :
  Logs.save_logs (λ m, m) demo_acc demo_acc demo_mean 3 0 demo_logs
  = Return tt demo_logs.
Proof.
  apply (save_logs_empty_metric (λ m, m) demo_acc demo_acc demo_mean 3 0 demo_logs 0);
    [reflexivity|by left].
Defined.

Lemma save_logs_strips_labels_witness :
  ∃ s1,
    Logs.save_logs (λ m, m) demo_acc demo_acc demo_mean 3 1 demo_logs = Normal tt s1 ∧
    length (new_calls demo_logs s1) = 7 ∧
    Logs.summary s1 = [("train", [("semantic", Logs.SummaryDict 5 None)])].
Proof.
  eexists. split; [vm_compute; reflexivity|].
  destruct (save_logs_strips_labels (λ m, m) demo_acc demo_acc demo_mean 3 1
              demo_logs _ eq_refl) as (Hlen & _).
  split; [exact Hlen|reflexivity].
Defined.

Lemma next_head_repeats_without_names_witness :
  ∃ s1 s2,
    Logs.save_logs (λ m, m) demo_acc demo_acc demo_mean 3 1 demo_logs = Normal tt s1 ∧
    Logs.save_logs (λ m, m) demo_acc demo_acc demo_mean 3 2 s1 = Normal tt s2 ∧
    drop 6 (new_calls demo_logs s1)
    = [Logs.Add3d "train/semantic" (Logs.SummaryDict 5 None) 3 (Some 9)] ∧
    drop 6 (new_calls s1 s2)
    = [Logs.Add3d "train/semantic" (Logs.SummaryDict 5 None) 3 None].
Proof.
  eexists _, _. split; [vm_compute; reflexivity|].
  split; [vm_compute; reflexivity|]. split; [reflexivity|].
  edestruct (next_head_repeats_without_names (λ m, m) demo_acc demo_acc demo_mean
               3 1 2 demo_logs) as [-> _]; [reflexivity..|reflexivity].
Defined.
